(** * velux_active: token handling, record mapping and the refresh cycle

    A shallow embedding of [custom_components/velux_active/api.py] and
    [custom_components/velux_active/__init__.py].

    Conventions of the embedding.
    - Values that arrive as decoded JSON are kept as they arrive ([pyval]):
      the Python code stores them without checking them against its
      annotations.  Fractional JSON numbers are not represented; no field
      read by the code below is fractional.
    - [datetime] and [timedelta] are integers counting microseconds; the
      range limits of the two library types are not represented.
    - Python exceptions are values of [exn]; a computation that may raise
      returns [result].  Code that awaits the HTTP session runs in the
      state-and-error monad [M] over [World], which holds the API object's
      stored token, the wall clock, the requests sent so far and the
      behaviour of the remote side.
    - Logging calls have no effect on results and are left out. *)

From Stdlib Require Import ZArith List String Bool Lia.
Import ListNotations.
Local Open Scope string_scope.
Local Open Scope Z_scope.
Set Warnings "-register-all".

(** ** Python values *)

(** Decoded JSON. A [PDict] keeps its items in insertion order. *)
Inductive pyval : Type :=
| PNone
| PBool (b : bool)
| PInt (z : Z)
| PStr (s : string)
| PList (l : list pyval)
| PDict (d : list (string * pyval)).

Definition dict (V : Type) : Type := list (string * V).

Fixpoint dict_get {V : Type} (key : string) (d : dict V) : option V :=
  match d with
  | [] => None
  | (k, v) :: d' => if String.eqb key k then Some v else dict_get key d'
  end.

Definition dict_keys {V : Type} (d : dict V) : list string := map fst d.

Definition str_in (key : string) (keys : list string) : bool :=
  existsb (String.eqb key) keys.

(** [key in d] *)
Definition dict_mem {V : Type} (key : string) (d : dict V) : bool :=
  str_in key (dict_keys d).

Fixpoint dict_remove {V : Type} (key : string) (d : dict V) : dict V :=
  match d with
  | [] => []
  | (k, v) :: d' =>
      if String.eqb key k then dict_remove key d' else (k, v) :: dict_remove key d'
  end.

Fixpoint str_nodup (keys : list string) : bool :=
  match keys with
  | [] => true
  | k :: keys' => negb (str_in k keys') && str_nodup keys'
  end.

(** Python's [==] on decoded JSON: [True == 1], lists compare element by
    element, dicts compare as finite maps. *)
Fixpoint py_eq (a b : pyval) {struct a} : bool :=
  match a, b with
  | PNone, PNone => true
  | PBool x, PBool y => Bool.eqb x y
  | PBool x, PInt y => Z.eqb (Z.b2z x) y
  | PInt x, PBool y => Z.eqb x (Z.b2z y)
  | PInt x, PInt y => Z.eqb x y
  | PStr x, PStr y => String.eqb x y
  | PList x, PList y =>
      (fix go (x y : list pyval) {struct x} : bool :=
         match x, y with
         | [], [] => true
         | u :: x', v :: y' => py_eq u v && go x' y'
         | _, _ => false
         end) x y
  | PDict x, PDict y =>
      Nat.eqb (List.length x) (List.length y)
      && (fix go (x : list (string * pyval)) {struct x} : bool :=
            match x with
            | [] => true
            | (k, u) :: x' =>
                match dict_get k y with
                | Some v => py_eq u v
                | None => false
                end && go x'
            end) x
  | _, _ => false
  end.

(** [v is None] *)
Definition is_none (v : pyval) : bool :=
  match v with
  | PNone => true
  | _ => false
  end.

(** [hash(v)] raises [TypeError] on lists and dicts. *)
Definition py_hashable (v : pyval) : bool :=
  match v with
  | PList _ | PDict _ => false
  | _ => true
  end.

(** ** Exceptions *)

Inductive update_reason : Type :=
| Reauthenticated        (* "Re-authenticated with Velux Active because of ..." *)
| CommunicationError.    (* "Error communicating with API: ..." *)

(** Every exception below is a subclass of Python's [Exception].  The
    second argument of [InvalidAuthError] and the argument of
    [UpdateFailed] is the [from err] cause. *)
Inductive exn : Type :=
| InvalidAuthError (msg : string) (cause : option exn)
| UpdateFailed (reason : update_reason) (cause : exn)
| KeyError (msg : string)
| TypeError (msg : string)
| AttributeError (msg : string)
| ClientError (msg : string)            (* the HTTP request itself failed *)
| ClientResponseError (status : Z)      (* [raise_for_status] *)
| JSONDecodeError.                      (* [response.json()] failed *)

Definition is_InvalidAuthError (e : exn) : bool :=
  match e with
  | InvalidAuthError _ _ => true
  | _ => false
  end.

Definition is_UpdateFailed (e : exn) : bool :=
  match e with
  | UpdateFailed _ _ => true
  | _ => false
  end.

Definition result (A : Type) : Type := exn + A.

Definition ok {A : Type} (a : A) : result A := inr a.
Definition raise {A : Type} (e : exn) : result A := inl e.

Definition rbind {A B : Type} (r : result A) (k : A -> result B) : result B :=
  match r with
  | inl e => inl e
  | inr a => k a
  end.

Declare Scope result_scope.
Delimit Scope result_scope with result.
Notation "x <- r ;; k" := (rbind r (fun x => k))
  (at level 61, r at next level, right associativity) : result_scope.

Fixpoint rmap {A B : Type} (f : A -> result B) (l : list A) : result (list B) :=
  match l with
  | [] => ok []
  | a :: l' =>
      (b <- f a ;; bs <- rmap f l' ;; ok (b :: bs))%result
  end.

(** ** Time *)

Definition datetime : Type := Z.
Definition timedelta : Type := Z.

Definition timedelta_seconds (s : Z) : timedelta := s * 1000000.
Definition timedelta_hm (hours minutes : Z) : timedelta :=
  timedelta_seconds (hours * 3600 + minutes * 60).

(** ** Subscripting and iterating decoded JSON *)

(** [v[key]] for a string [key]. *)
Definition py_getitem (v : pyval) (key : string) : result pyval :=
  match v with
  | PDict d =>
      match dict_get key d with
      | Some x => ok x
      | None => raise (KeyError key)
      end
  | PList _ => raise (TypeError "list indices must be integers or slices, not str")
  | PStr _ => raise (TypeError "string indices must be integers, not 'str'")
  | _ => raise (TypeError "object is not subscriptable")
  end.

Fixpoint string_chars (s : string) : list pyval :=
  match s with
  | EmptyString => []
  | String c s' => PStr (String c EmptyString) :: string_chars s'
  end.

(** [for x in v]: a list yields its elements, a dict its keys, a string its
    characters; nothing else is iterable. *)
Definition py_iter (v : pyval) : result (list pyval) :=
  match v with
  | PList l => ok l
  | PDict d => ok (map PStr (dict_keys d))
  | PStr s => ok (string_chars s)
  | _ => raise (TypeError "object is not iterable")
  end.

(** [**v] in a call: [v] must be a mapping. *)
Definition py_splat (v : pyval) : result (dict pyval) :=
  match v with
  | PDict d => ok d
  | _ => raise (TypeError "argument after ** must be a mapping")
  end.

(** Binding of keyword arguments to a signature without [**kwargs]: a
    keyword outside the signature, or a parameter without default that
    receives no value, raises [TypeError]. *)
Definition bind_arguments {V : Type} (required optional : list string)
    (kw : dict V) : result unit :=
  if negb (forallb (fun k => str_in k (required ++ optional)) (dict_keys kw))
  then raise (TypeError "got an unexpected keyword argument")
  else if negb (forallb (fun p => dict_mem p kw) required)
  then raise (TypeError "missing required positional arguments")
  else ok tt.

(** Binding to a signature that ends in [**kwargs]: [self] and the
    positional parameters already given may not be repeated by keyword. *)
Definition bind_arguments_rest {V : Type} (taken required : list string)
    (kw : dict V) : result unit :=
  if existsb (fun p => dict_mem p kw) taken
  then raise (TypeError "got multiple values for argument")
  else if negb (forallb (fun p => dict_mem p kw) required)
  then raise (TypeError "missing required positional arguments")
  else ok tt.

(** The value a bound parameter holds. *)
Definition arg {V : Type} (kw : dict V) (name : string) (default : V) : V :=
  match dict_get name kw with
  | Some v => v
  | None => default
  end.

(** ** class AuthToken *)

Module AuthToken.

Record t : Type := mk {
  access_token : pyval;
  refresh_token : pyval;
  expires_in : timedelta;
  created_at : datetime;
  expires_at : datetime
}.

(** [timedelta(seconds=v)]: integers (and booleans, which are integers)
    are accepted. *)
Definition seconds_of (v : pyval) : result timedelta :=
  match v with
  | PInt z => ok (timedelta_seconds z)
  | PBool b => ok (timedelta_seconds (Z.b2z b))
  | _ => raise (TypeError "unsupported type for timedelta seconds component")
  end.

(** [AuthToken] called with the keywords [kw] when the clock reads
    [now]. *)
Definition init (now : datetime) (kw : dict pyval) : result t :=
  (_ <- bind_arguments_rest ["self"]
          ["access_token"; "refresh_token"; "expires_in"] kw ;;
   lifetime <- seconds_of (arg kw "expires_in" PNone) ;;
   ok {| access_token := arg kw "access_token" PNone;
         refresh_token := arg kw "refresh_token" PNone;
         expires_in := lifetime;
         created_at := now;
         expires_at := now + lifetime |})%result.

Definition expires (now : datetime) (self : t) (time : timedelta) : bool :=
  expires_at self <? now + time.

(** [time or timedelta(seconds=0)] *)
Definition or_zero (time : timedelta) : timedelta :=
  if time =? 0 then timedelta_seconds 0 else time.

Definition valid_in (now : datetime) (self : t) (time : timedelta) : bool :=
  negb (is_none (access_token self))
  && negb (expires now self (or_zero time)).

(** The margin left at [now]. *)
Definition remaining (now : datetime) (self : t) : timedelta :=
  expires_at self - now.

(** [expires_at = created_at + expires_in] *)
Definition invariant (self : t) : Prop :=
  expires_at self = created_at self + expires_in self.

End AuthToken.

(** ** class VeluxHome *)

Module VeluxHome.

Record t : Type := mk {
  id : pyval;
  name : pyval;
  kwargs : dict pyval
}.

(** [VeluxHome] called with the keywords [kw]. *)
Definition init (kw : dict pyval) : result t :=
  (_ <- bind_arguments_rest ["self"] ["id"; "name"] kw ;;
   ok {| id := arg kw "id" PNone;
         name := arg kw "name" PNone;
         kwargs := dict_remove "id" (dict_remove "name" kw) |})%result.

(** [hash(self)] is [hash(self.id)]; only whether it raises matters. *)
Definition hash (self : t) : result unit :=
  if py_hashable (id self) then ok tt
  else raise (TypeError "unhashable type").

End VeluxHome.

(** ** class VeluxModule *)

(** What subscripting a [VeluxModule] can return: a JSON value, the owning
    home, or a bound method. *)
Inductive item : Type :=
| IVal (v : pyval)
| IHome (h : VeluxHome.t)
| IMethod (name : string).

Module VeluxModule.

Record t : Type := mk {
  home : VeluxHome.t;
  id : pyval;
  type : pyval;
  kwargs : dict pyval
}.

(** [VeluxModule(home, **kw)] *)
Definition init (home : VeluxHome.t) (kw : dict pyval) : result t :=
  (_ <- bind_arguments_rest ["self"; "home"] ["id"; "type"] kw ;;
   ok {| home := home;
         id := arg kw "id" PNone;
         type := arg kw "type" PNone;
         kwargs := dict_remove "id" (dict_remove "type" kw) |})%result.

(** Names other than the four instance attributes that [hasattr] finds
    on an instance: the methods of the class and what every object
    inherits (CPython 3.12). *)
Definition class_attributes : list string :=
  [ "__init__"; "__str__"; "__repr__"; "__hash__"; "__eq__";
    "__getitem__"; "keys"; "__iter__"; "items";
    "__module__"; "__dict__"; "__weakref__"; "__doc__"; "__class__";
    "__new__"; "__getattribute__"; "__setattr__"; "__delattr__";
    "__lt__"; "__le__"; "__ne__"; "__gt__"; "__ge__";
    "__reduce_ex__"; "__reduce__"; "__getstate__"; "__subclasshook__";
    "__init_subclass__"; "__format__"; "__sizeof__"; "__dir__" ].

(** [getattr(self, key)] when [hasattr(self, key)] *)
Definition getattr (self : t) (key : string) : option item :=
  if String.eqb key "id" then Some (IVal (id self))
  else if String.eqb key "type" then Some (IVal (type self))
  else if String.eqb key "kwargs" then Some (IVal (PDict (kwargs self)))
  else if String.eqb key "home" then Some (IHome (home self))
  else if str_in key class_attributes then Some (IMethod key)
  else None.

(** [self[key]] *)
Definition getitem (self : t) (key : string) : result item :=
  match dict_get key (kwargs self) with
  | Some v => ok (IVal v)
  | None =>
      match getattr self key with
      | Some a => ok a
      | None => raise (KeyError ("Key '" ++ key ++ "' not found in VeluxModule"))
      end
  end.

Definition keys (self : t) : list string :=
  dict_keys (kwargs self) ++ ["id"; "type"; "home"].

(** [**self] in a call: the keys are read with [keys()], the values
    with [self[key]]; a key met twice raises [TypeError]. *)
Definition splat (self : t) : result (dict item) :=
  if str_nodup (keys self)
  then rmap (fun k => (v <- getitem self k ;; ok (k, v))%result) (keys self)
  else raise (TypeError "got multiple values for keyword argument").

End VeluxModule.

(** ** The device dataclasses

    A dataclass constructor binds its keywords to the declared fields and
    stores the values unchecked. *)

Definition no_value : item := IVal PNone.

Module VeluxGatewayData.

Record t : Type := mk {
  home : item;
  busy : item;
  calibrating : item;
  firmware_revision_netatmo : item;
  firmware_revision_thirdparty : item;
  hardware_version : item;
  id : item;
  is_raining : item;
  last_seen : item;
  locked : item;
  locking : item;
  name : item;
  pairing : item;
  secure : item;
  type : item;
  wifi_strength : item;
  wifi_state : item;
  outdated_weather_forecast : item
}.

Definition required : list string :=
  [ "home"; "busy"; "calibrating"; "firmware_revision_netatmo";
    "firmware_revision_thirdparty"; "hardware_version"; "id";
    "is_raining"; "last_seen"; "locked"; "locking"; "name"; "pairing";
    "secure"; "type"; "wifi_strength"; "wifi_state" ].

Definition optional : list string := [ "outdated_weather_forecast" ].

Definition init (kw : dict item) : result t :=
  (_ <- bind_arguments required optional kw ;;
   ok {| home := arg kw "home" no_value;
         busy := arg kw "busy" no_value;
         calibrating := arg kw "calibrating" no_value;
         firmware_revision_netatmo := arg kw "firmware_revision_netatmo" no_value;
         firmware_revision_thirdparty :=
           arg kw "firmware_revision_thirdparty" no_value;
         hardware_version := arg kw "hardware_version" no_value;
         id := arg kw "id" no_value;
         is_raining := arg kw "is_raining" no_value;
         last_seen := arg kw "last_seen" no_value;
         locked := arg kw "locked" no_value;
         locking := arg kw "locking" no_value;
         name := arg kw "name" no_value;
         pairing := arg kw "pairing" no_value;
         secure := arg kw "secure" no_value;
         type := arg kw "type" no_value;
         wifi_strength := arg kw "wifi_strength" no_value;
         wifi_state := arg kw "wifi_state" no_value;
         outdated_weather_forecast :=
           arg kw "outdated_weather_forecast" (IVal PNone) |})%result.

End VeluxGatewayData.

Module VeluxWindowData.

Record t : Type := mk {
  home : item;
  current_position : item;
  firmware_revision : item;
  id : item;
  last_seen : item;
  manufacturer : item;
  mode : item;
  reachable : item;
  silent : item;
  target_position : item;
  type : item;
  velux_type : item;
  bridge : item;
  rain_position : item;
  secure_position : item
}.

Definition required : list string :=
  [ "home"; "current_position"; "firmware_revision"; "id"; "last_seen";
    "manufacturer"; "mode"; "reachable"; "silent"; "target_position";
    "type"; "velux_type"; "bridge"; "rain_position"; "secure_position" ].

Definition optional : list string := [].

Definition init (kw : dict item) : result t :=
  (_ <- bind_arguments required optional kw ;;
   ok {| home := arg kw "home" no_value;
         current_position := arg kw "current_position" no_value;
         firmware_revision := arg kw "firmware_revision" no_value;
         id := arg kw "id" no_value;
         last_seen := arg kw "last_seen" no_value;
         manufacturer := arg kw "manufacturer" no_value;
         mode := arg kw "mode" no_value;
         reachable := arg kw "reachable" no_value;
         silent := arg kw "silent" no_value;
         target_position := arg kw "target_position" no_value;
         type := arg kw "type" no_value;
         velux_type := arg kw "velux_type" no_value;
         bridge := arg kw "bridge" no_value;
         rain_position := arg kw "rain_position" no_value;
         secure_position := arg kw "secure_position" no_value |})%result.

End VeluxWindowData.

Module VeluxShutterData.

Record t : Type := mk {
  home : item;
  current_position : item;
  firmware_revision : item;
  id : item;
  last_seen : item;
  manufacturer : item;
  mode : item;
  reachable : item;
  silent : item;
  target_position : item;
  type : item;
  velux_type : item;
  bridge : item
}.

Definition required : list string :=
  [ "home"; "current_position"; "firmware_revision"; "id"; "last_seen";
    "manufacturer"; "mode"; "reachable"; "silent"; "target_position";
    "type"; "velux_type"; "bridge" ].

Definition optional : list string := [].

Definition init (kw : dict item) : result t :=
  (_ <- bind_arguments required optional kw ;;
   ok {| home := arg kw "home" no_value;
         current_position := arg kw "current_position" no_value;
         firmware_revision := arg kw "firmware_revision" no_value;
         id := arg kw "id" no_value;
         last_seen := arg kw "last_seen" no_value;
         manufacturer := arg kw "manufacturer" no_value;
         mode := arg kw "mode" no_value;
         reachable := arg kw "reachable" no_value;
         silent := arg kw "silent" no_value;
         target_position := arg kw "target_position" no_value;
         type := arg kw "type" no_value;
         velux_type := arg kw "velux_type" no_value;
         bridge := arg kw "bridge" no_value |})%result.

End VeluxShutterData.

Module VeluxSwitchData.

Record t : Type := mk {
  home : item;
  battery_level : item;
  battery_percent : item;
  firmware_revision : item;
  id : item;
  last_seen : item;
  reachable : item;
  rf_strength : item;
  type : item;
  bridge : item;
  battery_state : item;
  rf_state : item
}.

Definition required : list string :=
  [ "home"; "battery_level"; "battery_percent"; "firmware_revision"; "id";
    "last_seen"; "reachable"; "rf_strength"; "type"; "bridge";
    "battery_state"; "rf_state" ].

Definition optional : list string := [].

Definition init (kw : dict item) : result t :=
  (_ <- bind_arguments required optional kw ;;
   ok {| home := arg kw "home" no_value;
         battery_level := arg kw "battery_level" no_value;
         battery_percent := arg kw "battery_percent" no_value;
         firmware_revision := arg kw "firmware_revision" no_value;
         id := arg kw "id" no_value;
         last_seen := arg kw "last_seen" no_value;
         reachable := arg kw "reachable" no_value;
         rf_strength := arg kw "rf_strength" no_value;
         type := arg kw "type" no_value;
         bridge := arg kw "bridge" no_value;
         battery_state := arg kw "battery_state" no_value;
         rf_state := arg kw "rf_state" no_value |})%result.

End VeluxSwitchData.

(** What the mapper returns when it returns a record. *)
Inductive device : Type :=
| Gateway (g : VeluxGatewayData.t)
| Switch (s : VeluxSwitchData.t)
| Shutter (s : VeluxShutterData.t)
| Window (w : VeluxWindowData.t).

Definition device_id (d : device) : item :=
  match d with
  | Gateway g => VeluxGatewayData.id g
  | Switch s => VeluxSwitchData.id s
  | Shutter s => VeluxShutterData.id s
  | Window w => VeluxWindowData.id w
  end.

(** ** The record mapper *)

(** A literal [case 'text'] of a [match] statement compares with [==]. *)
Definition case_str (v : pyval) (text : string) : bool :=
  py_eq v (PStr text).

Definition item_case_str (i : item) (text : string) : bool :=
  match i with
  | IVal v => case_str v text
  | _ => false
  end.

Definition _convert_status_to_sensor (status : VeluxModule.t)
    : result (option device) :=
  if case_str (VeluxModule.type status) "NXG" then
    (kw <- VeluxModule.splat status ;;
     g <- VeluxGatewayData.init kw ;;
     ok (Some (Gateway g)))%result
  else if case_str (VeluxModule.type status) "NXS" then
    (kw <- VeluxModule.splat status ;;
     s <- VeluxSwitchData.init kw ;;
     ok (Some (Switch s)))%result
  else if case_str (VeluxModule.type status) "NXO" then
    (velux_type <- VeluxModule.getitem status "velux_type" ;;
     if item_case_str velux_type "shutter" then
       (kw <- VeluxModule.splat status ;;
        s <- VeluxShutterData.init kw ;;
        ok (Some (Shutter s)))
     else if item_case_str velux_type "window" then
       (kw <- VeluxModule.splat status ;;
        w <- VeluxWindowData.init kw ;;
        ok (Some (Window w)))
     else ok None)%result
  else ok None.

(** ** Equality of homes and modules *)

(** The objects the code handles, as far as [isinstance] tells them apart. *)
Inductive pyobj : Type :=
| OVal (v : pyval)
| OHome (h : VeluxHome.t)
| OModule (m : VeluxModule.t)
| ODevice (d : device)
| OToken (t : AuthToken.t).

(** [VeluxHome.__eq__] *)
Definition VeluxHome__eq__ (self : VeluxHome.t) (other : pyobj) : bool :=
  match other with
  | OHome o => py_eq (VeluxHome.id self) (VeluxHome.id o)
  | _ => false
  end.

(** [VeluxModule.__eq__] *)
Definition VeluxModule__eq__ (self : VeluxModule.t) (other : pyobj) : bool :=
  match other with
  | OModule o =>
      VeluxHome__eq__ (VeluxModule.home self) (OHome (VeluxModule.home o))
      && py_eq (VeluxModule.id self) (VeluxModule.id o)
      && py_eq (VeluxModule.type self) (VeluxModule.type o)
  | _ => false
  end.

(** ** const.py *)

Definition API_URL : string := "https://app.velux-active.com".
Definition OAUTH2_TOKEN : string := API_URL ++ "/oauth2/token".
Definition OAUTH2_CLIENT_ID : string := "5931426da127d981e76bdd3f".
Definition OAUTH2_CLIENT_SECRET : string := "6ae2d89d15e767ae5c56b456b452d319".

(** ** The HTTP session and the clock *)

(** A POST request with its form data. *)
Record Request : Type := {
  url : string;
  data : dict pyval
}.

(** A response: its status code and what [response.json()] gives, [None]
    when the body does not decode. *)
Record Response : Type := {
  status : Z;
  json : option pyval
}.

Inductive outcome : Type :=
| Fails (msg : string)          (* the request raises *)
| Answers (r : Response).

(** What one request meets: the time it takes and how it ends. *)
Record Exchange : Type := {
  elapsed : timedelta;
  ending : outcome
}.

(** [remote] answers the latest of the requests sent so far. *)
Record World : Type := {
  auth_token : option AuthToken.t;      (* [VeluxActiveAPI.auth_token] *)
  now : datetime;
  sent : list Request;
  remote : list Request -> Exchange
}.

Definition M (A : Type) : Type := World -> result A * World.

Definition ret {A : Type} (a : A) : M A := fun w => (ok a, w).
Definition throw {A : Type} (e : exn) : M A := fun w => (raise e, w).

Definition bind {A B : Type} (m : M A) (k : A -> M B) : M B :=
  fun w =>
    match m w with
    | (inl e, w') => (inl e, w')
    | (inr a, w') => k a w'
    end.

Definition lift {A : Type} (r : result A) : M A := fun w => (r, w).

(** [try: body / except Exception as err: handler(err)] *)
Definition try_except {A : Type} (body : M A) (handler : exn -> M A) : M A :=
  fun w =>
    match body w with
    | (inl e, w') => handler e w'
    | (inr a, w') => (inr a, w')
    end.

Declare Scope M_scope.
Delimit Scope M_scope with M.
Notation "x <- m ;; k" := (bind m (fun x => k))
  (at level 61, m at next level, right associativity) : M_scope.
Notation "m ;;; k" := (bind m (fun _ => k))
  (at level 61, right associativity) : M_scope.

Definition datetime_now : M datetime := fun w => (ok (now w), w).

Definition get_auth_token : M (option AuthToken.t) :=
  fun w => (ok (auth_token w), w).

Definition set_auth_token (tok : AuthToken.t) : M unit :=
  fun w => (ok tt, {| auth_token := Some tok; now := now w;
                      sent := sent w; remote := remote w |}).

(** [await self._websession.request("POST", url, data=data)] *)
Definition request (r : Request) : M Response :=
  fun w =>
    let x := remote w (sent w ++ [r]) in
    let w' := {| auth_token := auth_token w; now := now w + elapsed x;
                 sent := sent w ++ [r]; remote := remote w |} in
    match ending x with
    | Fails msg => (raise (ClientError msg), w')
    | Answers resp => (ok resp, w')
    end.

Definition response_ok (r : Response) : bool := status r <? 400.

Definition raise_for_status (r : Response) : M unit :=
  if 400 <=? status r then throw (ClientResponseError (status r)) else ret tt.

(** [await response.json()] *)
Definition response_json (r : Response) : M pyval :=
  match json r with
  | Some v => ret v
  | None => throw JSONDecodeError
  end.

(** [AuthToken] called with the decoded body as keywords. *)
Definition AuthToken_of_json (body : pyval) : M AuthToken.t :=
  (kw <- lift (py_splat body) ;;
   t <- datetime_now ;;
   lift (AuthToken.init t kw))%M.

(** The world once request [r] has been sent and has ended. *)
Definition after_request (w : World) (r : Request) : World :=
  {| auth_token := auth_token w;
     now := now w + elapsed (remote w (sent w ++ [r]));
     sent := sent w ++ [r];
     remote := remote w |}.

(** The world with [tok] stored as [self.auth_token]. *)
Definition with_token (w : World) (tok : AuthToken.t) : World :=
  {| auth_token := Some tok; now := now w; sent := sent w;
     remote := remote w |}.

(** ** class VeluxActiveAPI *)

(** The form [authenticate] posts to the token endpoint. *)
Definition password_grant (username password : string) : Request :=
  {| url := OAUTH2_TOKEN;
     data := [ ("username", PStr username);
               ("password", PStr password);
               ("grant_type", PStr "password");
               ("user_prefix", PStr "velux");
               ("client_id", PStr OAUTH2_CLIENT_ID);
               ("client_secret", PStr OAUTH2_CLIENT_SECRET) ] |}.

(** The form [refresh_access_token] posts to the token endpoint. *)
Definition refresh_grant (auth_token : AuthToken.t) : Request :=
  {| url := OAUTH2_TOKEN;
     data := [ ("refresh_token", AuthToken.refresh_token auth_token);
               ("grant_type", PStr "refresh_token");
               ("client_id", PStr OAUTH2_CLIENT_ID);
               ("client_secret", PStr OAUTH2_CLIENT_SECRET) ] |}.

Module VeluxActiveAPI.

Definition authenticate (username password : string) : M AuthToken.t :=
  (response <- request (password_grant username password) ;;
   if negb (response_ok response)
   then throw (InvalidAuthError "Invalid username or password" None)
   else
     body <- response_json response ;;
     tok <- AuthToken_of_json body ;;
     set_auth_token tok ;;;
     ret tok)%M.

Definition refresh_access_token (auth_token : AuthToken.t) : M AuthToken.t :=
  (response <- request (refresh_grant auth_token) ;;
   raise_for_status response ;;;
   body <- response_json response ;;
   AuthToken_of_json body)%M.

(** [self.auth_token] as the receiver of an attribute access. *)
Definition self_auth_token : M AuthToken.t :=
  (tok <- get_auth_token ;;
   match tok with
   | Some t => ret t
   | None => throw (AttributeError "'NoneType' object has no attribute")
   end)%M.

Definition safety_margin : timedelta := timedelta_hm 2 59.

(** The [access_token] property. *)
Definition access_token : M pyval :=
  (tok <- self_auth_token ;;
   t <- datetime_now ;;
   (if negb (AuthToken.valid_in t tok safety_margin)
    then
      try_except
        (old <- self_auth_token ;;
         new <- refresh_access_token old ;;
         set_auth_token new)
        (fun err => throw (InvalidAuthError "Invalid refresh token" (Some err)))
    else ret tt) ;;;
   tok' <- self_auth_token ;;
   ret (AuthToken.access_token tok'))%M.

Definition get_home_data : M (list VeluxHome.t) :=
  (token <- access_token ;;
   response <- request
     {| url := API_URL ++ "/api/gethomedata";
        data := [ ("access_token", token) ] |} ;;
   raise_for_status response ;;;
   response_json <- response_json response ;;
   body <- lift (py_getitem response_json "body") ;;
   homes <- lift (py_getitem body "homes") ;;
   homes <- lift (py_iter homes) ;;
   lift (rmap (fun home => (kw <- py_splat home ;; VeluxHome.init kw)%result)
              homes))%M.

(** The body is decoded before [response.text()] is logged, so the latter
    decodes the same bytes again and adds no failure of its own. *)
Definition get_home_statuses (home : VeluxHome.t) : M (list VeluxModule.t) :=
  (token <- access_token ;;
   response <- request
     {| url := API_URL ++ "/api/homestatus";
        data := [ ("access_token", token);
                  ("home_id", VeluxHome.id home) ] |} ;;
   raise_for_status response ;;;
   response_json <- response_json response ;;
   body <- lift (py_getitem response_json "body") ;;
   home_json <- lift (py_getitem body "home") ;;
   modules <- lift (py_getitem home_json "modules") ;;
   modules <- lift (py_iter modules) ;;
   lift (rmap (fun module =>
                 (kw <- py_splat module ;; VeluxModule.init home kw)%result)
              modules))%M.

End VeluxActiveAPI.

(** ** The update coordinator's refresh cycle *)

(** The dict [data]: one entry per home, the value being the list under
    ["devices"]. *)
Definition snapshot : Type := list (VeluxHome.t * list device).

(** Where an equal key is present its value is replaced, else the entry is
    added at the end. *)
Fixpoint snapshot_set (data : snapshot) (home : VeluxHome.t)
    (devices : list device) : snapshot :=
  match data with
  | [] => [(home, devices)]
  | (k, v) :: data' =>
      if VeluxHome__eq__ k (OHome home) then (k, devices) :: data'
      else (k, v) :: snapshot_set data' home devices
  end.

(** [data[home] = {"devices": devices}] *)
Definition snapshot_setitem (data : snapshot) (home : VeluxHome.t)
    (devices : list device) : result snapshot :=
  (_ <- VeluxHome.hash home ;; ok (snapshot_set data home devices))%result.

(** The inner loop, [devices] being the list built so far. *)
Fixpoint convert_statuses (statuses : list VeluxModule.t)
    (devices : list device) : result (list device) :=
  match statuses with
  | [] => ok devices
  | status :: statuses' =>
      (device <- _convert_status_to_sensor status ;;
       match device with
       | Some d => convert_statuses statuses' (devices ++ [d])
       | None => convert_statuses statuses' devices
       end)%result
  end.

(** The outer loop, [data] being the dict built so far. *)
Fixpoint update_homes (homes : list VeluxHome.t) (data : snapshot)
    : M snapshot :=
  match homes with
  | [] => ret data
  | home :: homes' =>
      (statuses <- VeluxActiveAPI.get_home_statuses home ;;
       devices <- lift (convert_statuses statuses []) ;;
       data' <- lift (snapshot_setitem data home devices) ;;
       update_homes homes' data')%M
  end.

(** The body of the [try] statement. *)
Definition update_body : M snapshot :=
  (homes <- VeluxActiveAPI.get_home_data ;;
   update_homes homes [])%M.

(** [entry.data] *)
Record ConfigEntry : Type := {
  username : string;
  password : string
}.

Definition async_update_data (entry : ConfigEntry) : M snapshot :=
  try_except update_body
    (fun err =>
       if is_InvalidAuthError err then
         (VeluxActiveAPI.authenticate (username entry) (password entry) ;;;
          throw (UpdateFailed Reauthenticated err))%M
       else throw (UpdateFailed CommunicationError err)).

(** ** Predicates used in the statements *)



(** What [refresh_access_token] returns, the request having ended. *)
Definition refresh_result (tok : AuthToken.t) (w : World)
    : result AuthToken.t :=
  match ending (remote w (sent w ++ [refresh_grant tok])) with
  | Fails msg => raise (ClientError msg)
  | Answers resp =>
      if 400 <=? status resp then raise (ClientResponseError (status resp))
      else
        match json resp with
        | None => raise JSONDecodeError
        | Some body =>
            (kw <- py_splat body ;;
             AuthToken.init (now (after_request w (refresh_grant tok))) kw)%result
        end
  end.

(** What [authenticate] returns, the request having ended. *)
Definition authenticate_result (u p : string) (w : World)
    : result AuthToken.t :=
  match ending (remote w (sent w ++ [password_grant u p])) with
  | Fails msg => raise (ClientError msg)
  | Answers resp =>
      if negb (response_ok resp)
      then raise (InvalidAuthError "Invalid username or password" None)
      else
        match json resp with
        | None => raise JSONDecodeError
        | Some body =>
            (kw <- py_splat body ;;
             AuthToken.init (now (after_request w (password_grant u p))) kw)%result
        end
  end.

(** The keys of [status] are the keywords a constructor with these
    required and optional fields accepts: no key twice, no key outside the
    fields, every required field among the keys. *)
Definition fits (required optional : list string) (status : VeluxModule.t)
    : bool :=
  str_nodup (VeluxModule.keys status)
  && forallb (fun k => str_in k (required ++ optional)) (VeluxModule.keys status)
  && forallb (fun p => str_in p (VeluxModule.keys status)) required.

Definition is_gateway (d : device) : Prop := exists g, d = Gateway g.
Definition is_switch (d : device) : Prop := exists x, d = Switch x.
Definition is_shutter (d : device) : Prop := exists x, d = Shutter x.
Definition is_window (d : device) : Prop := exists x, d = Window x.

(** The mapper builds from [status] a record of the given kind that
    carries the identifier of [status] when the keys of [status] fit the
    fields of the dataclass, and raises [TypeError] when they do not. *)
Definition built (required optional : list string) (kind : device -> Prop)
    (status : VeluxModule.t) : Prop :=
  if fits required optional status
  then exists d,
         _convert_status_to_sensor status = ok (Some d)
         /\ kind d
         /\ device_id d = IVal (VeluxModule.id status)
  else exists msg, _convert_status_to_sensor status = raise (TypeError msg).

(** * The rest of api.py and of the cycle's data *)





(** [VeluxModule.items], run to its end: the pairs [(key, self[key])] for
    the keys of [keys()]. *)
Definition VeluxModule_items (self : VeluxModule.t) : result (dict item) :=
  rmap (fun key => (v <- VeluxModule.getitem self key ;; ok (key, v))%result)
       (VeluxModule.keys self).

(** The [home] field of a device record. *)
Definition device_home (d : device) : item :=
  match d with
  | Gateway g => VeluxGatewayData.home g
  | Switch s => VeluxSwitchData.home s
  | Shutter s => VeluxShutterData.home s
  | Window w => VeluxWindowData.home w
  end.

(** Lookup in the dict [data] by the equality of its keys. *)
Fixpoint snapshot_get (data : snapshot) (home : VeluxHome.t)
    : option (list device) :=
  match data with
  | [] => None
  | (k, v) :: data' =>
      if VeluxHome__eq__ k (OHome home) then Some v else snapshot_get data' home
  end.

(** [coordinator.data[home]["devices"]], as the platforms read it. *)
Definition snapshot_getitem (data : snapshot) (home : VeluxHome.t)
    : result (list device) :=
  (_ <- VeluxHome.hash home ;;
   match snapshot_get data home with
   | Some devices => ok devices
   | None => raise (KeyError "home")
   end)%result.

(** The keys of a dict are hashable and no two of them are equal. *)
Fixpoint snapshot_wf (data : snapshot) : Prop :=
  match data with
  | [] => True
  | (k, _) :: data' =>
      py_hashable (VeluxHome.id k) = true
      /\ snapshot_get data' k = None
      /\ snapshot_wf data'
  end.

(** Every record of [devices] belongs to [home] and has a JSON value as
    identifier. *)
Definition devices_of (home : VeluxHome.t) (devices : list device) : Prop :=
  forall d, In d devices ->
    device_home d = IHome home /\ exists v, device_id d = IVal v.

(** The devices under every key belong to a home equal to the key. *)
Definition filed_by_home (data : snapshot) : Prop :=
  forall k devices, In (k, devices) data ->
    exists home,
      VeluxHome__eq__ k (OHome home) = true /\ devices_of home devices.

(** The records a list of mapper results holds. *)
Fixpoint somes {A : Type} (l : list (option A)) : list A :=
  match l with
  | [] => []
  | Some a :: l' => a :: somes l'
  | None :: l' => somes l'
  end.

(** The forms of the two data requests. *)
Definition gethomedata_request (token : pyval) : Request :=
  {| url := API_URL ++ "/api/gethomedata";
     data := [ ("access_token", token) ] |}.

Definition homestatus_request (token : pyval) (home : VeluxHome.t) : Request :=
  {| url := API_URL ++ "/api/homestatus";
     data := [ ("access_token", token); ("home_id", VeluxHome.id home) ] |}.

(** What [get_home_data] makes of a decoded body. *)
Definition homes_of_json (response_json : pyval) : result (list VeluxHome.t) :=
  (body <- py_getitem response_json "body" ;;
   homes <- py_getitem body "homes" ;;
   homes <- py_iter homes ;;
   rmap (fun home => kw <- py_splat home ;; VeluxHome.init kw) homes)%result.

(** What [get_home_statuses] makes of a decoded body. *)
Definition modules_of_json (home : VeluxHome.t) (response_json : pyval)
    : result (list VeluxModule.t) :=
  (body <- py_getitem response_json "body" ;;
   home_json <- py_getitem body "home" ;;
   modules <- py_getitem home_json "modules" ;;
   modules <- py_iter modules ;;
   rmap (fun module => kw <- py_splat module ;; VeluxModule.init home kw)
        modules)%result.

(** What a data request returns, the request [r] having ended in [w]:
    [raise_for_status], the decoding of the body and [parse]. *)
Definition fetched {A : Type} (r : Request) (parse : pyval -> result A)
    (w : World) : result A :=
  match ending (remote w (sent w ++ [r])) with
  | Fails msg => raise (ClientError msg)
  | Answers resp =>
      if 400 <=? status resp then raise (ClientResponseError (status resp))
      else
        match json resp with
        | None => raise JSONDecodeError
        | Some v => parse v
        end
  end.

(** * Sample data *)

Module Sample.

(** The body of a token response, as in the vendor's documentation. *)
Definition token_body (access refresh : pyval) (lifetime : Z) : dict pyval :=
  [ ("access_token", access); ("refresh_token", refresh);
    ("expires_in", PInt lifetime); ("expire_in", PInt lifetime);
    ("scope", PList [PStr "all_scopes"]) ].

(** A token issued at instant [0] for three hours. *)
Definition token : AuthToken.t :=
  {| AuthToken.access_token := PStr "a";
     AuthToken.refresh_token := PStr "r";
     AuthToken.expires_in := timedelta_seconds 10800;
     AuthToken.created_at := 0;
     AuthToken.expires_at := timedelta_seconds 10800 |}.

(** The same token when the response carries [null] as access token. *)
Definition null_token : AuthToken.t :=
  {| AuthToken.access_token := PNone;
     AuthToken.refresh_token := PStr "r";
     AuthToken.expires_in := timedelta_seconds 10800;
     AuthToken.created_at := 0;
     AuthToken.expires_at := timedelta_seconds 10800 |}.

Definition casa : VeluxHome.t :=
  {| VeluxHome.id := PStr "h1"; VeluxHome.name := PStr "Casa";
     VeluxHome.kwargs := [("share_info", PBool false)] |}.

Definition anything : VeluxHome.t :=
  {| VeluxHome.id := PStr "h1"; VeluxHome.name := PStr "anything";
     VeluxHome.kwargs := [] |}.

Definition other_home : VeluxHome.t :=
  {| VeluxHome.id := PStr "h2"; VeluxHome.name := PStr "Casa";
     VeluxHome.kwargs := [] |}.

(** The homes of [homes_body] below. *)
Definition home1 : VeluxHome.t :=
  {| VeluxHome.id := PStr "h1"; VeluxHome.name := PStr "Casa";
     VeluxHome.kwargs := [] |}.

Definition home2 : VeluxHome.t :=
  {| VeluxHome.id := PStr "h2"; VeluxHome.name := PStr "Chata";
     VeluxHome.kwargs := [] |}.

(** A module whose identifier is that of [casa]. *)
Definition module_h1 : VeluxModule.t :=
  {| VeluxModule.home := casa; VeluxModule.id := PStr "h1";
     VeluxModule.type := PStr "NXG"; VeluxModule.kwargs := [] |}.

(** A remote side that plays the exchanges [xs] in turn and then goes on
    answering [last]. *)
Definition script (xs : list Exchange) (last : Exchange)
    : list Request -> Exchange :=
  fun reqs => nth (Nat.pred (List.length reqs)) xs last.

Definition answers (code : Z) (body : option pyval) : Exchange :=
  {| elapsed := timedelta_seconds 1;
     ending := Answers {| status := code; json := body |} |}.

Definition unreachable : Exchange :=
  {| elapsed := timedelta_seconds 30; ending := Fails "Cannot connect to host" |}.

Definition rejects : Exchange := answers 401 None.

Definition grants : Exchange :=
  answers 200 (Some (PDict (token_body (PStr "a") (PStr "r") 10800))).

(** Nothing stored yet, the clock at [0]. *)
Definition world0 : World :=
  {| auth_token := None; now := 0; sent := [];
     remote := script [] grants |}.

(** [token] is stored and two minutes old; the token endpoint rejects
    every request. *)
Definition stale_world : World :=
  {| auth_token := Some token; now := timedelta_seconds 120; sent := [];
     remote := script [] rejects |}.

(** [token] is stored and thirty seconds old. *)
Definition fresh_world : World :=
  {| auth_token := Some token; now := timedelta_seconds 30; sent := [];
     remote := script [] rejects |}.

(** A module record that carries nothing but its identifier and type. *)
Definition bare_gateway : VeluxModule.t :=
  {| VeluxModule.home := casa; VeluxModule.id := PStr "m1";
     VeluxModule.type := PStr "NXG"; VeluxModule.kwargs := [] |}.

Definition shutter_json : dict pyval :=
  [ ("id", PStr "s1"); ("type", PStr "NXO");
    ("current_position", PInt 100); ("firmware_revision", PInt 17);
    ("last_seen", PInt 1726354813); ("manufacturer", PStr "Velux");
    ("mode", PStr "velux"); ("reachable", PBool true);
    ("silent", PBool false); ("target_position", PInt 100);
    ("velux_type", PStr "shutter"); ("bridge", PStr "m1") ].

Definition shutter : VeluxModule.t :=
  {| VeluxModule.home := home1; VeluxModule.id := PStr "s1";
     VeluxModule.type := PStr "NXO";
     VeluxModule.kwargs := dict_remove "id" (dict_remove "type" shutter_json) |}.

(** An ["NXO"] record without ["velux_type"]. *)
Definition plain_nxo_json : dict pyval :=
  [ ("id", PStr "o1"); ("type", PStr "NXO"); ("reachable", PBool true) ].

Definition plain_nxo : VeluxModule.t :=
  {| VeluxModule.home := home1; VeluxModule.id := PStr "o1";
     VeluxModule.type := PStr "NXO";
     VeluxModule.kwargs := [("reachable", PBool true)] |}.

Definition entry : ConfigEntry :=
  {| username := "user@example.org"; password := "secret" |}.

(** The body of a "list homes" response with two homes. *)
Definition homes_body : pyval :=
  PDict [ ("body",
           PDict [ ("homes",
                    PList [ PDict [("id", PStr "h1"); ("name", PStr "Casa")];
                            PDict [("id", PStr "h2"); ("name", PStr "Chata")] ]) ]);
          ("status", PStr "ok") ].

(** The body of a "home status" response. *)
Definition status_body (modules : list pyval) : pyval :=
  PDict [ ("body", PDict [ ("home", PDict [ ("modules", PList modules) ]) ]);
          ("status", PStr "ok") ].

(** The home list arrives, the first home's status arrives, the second
    home's status request meets a server error. *)
Definition second_home_fails : World :=
  {| auth_token := Some token; now := timedelta_seconds 30; sent := [];
     remote := script [ answers 200 (Some homes_body);
                        answers 200 (Some (status_body [PDict shutter_json])) ]
                      (answers 500 None) |}.

(** The first home reports a shutter and an ["NXO"] record without
    ["velux_type"]. *)
Definition nxo_cycle : World :=
  {| auth_token := Some token; now := timedelta_seconds 30; sent := [];
     remote := script [ answers 200 (Some homes_body);
                        answers 200 (Some (status_body [ PDict shutter_json;
                                                         PDict plain_nxo_json ])) ]
                      (answers 200 (Some (status_body []))) |}.

(** The stored token is due, the refresh is rejected and the token
    endpoint cannot be reached afterwards. *)
Definition reauth_unreachable : World :=
  {| auth_token := Some token; now := timedelta_seconds 120; sent := [];
     remote := script [ rejects ] unreachable |}.

(** The stored token is due, the refresh is rejected and the login is
    accepted afterwards. *)
Definition reauth_granted : World :=
  {| auth_token := Some token; now := timedelta_seconds 120; sent := [];
     remote := script [ rejects ] grants |}.

(** Every request meets a server error. *)
Definition server_error : World :=
  {| auth_token := Some token; now := timedelta_seconds 30; sent := [];
     remote := script [] (answers 500 None) |}.

(** The first request is answered with the status of a home that has one
    shutter. *)
Definition status_world : World :=
  {| auth_token := Some token; now := timedelta_seconds 30; sent := [];
     remote := script [ answers 200 (Some (status_body [PDict shutter_json])) ]
                      (answers 500 None) |}.

Definition gateway : VeluxGatewayData.t :=
  {| VeluxGatewayData.home := IHome home1;
     VeluxGatewayData.busy := IVal (PBool false);
     VeluxGatewayData.calibrating := IVal (PBool false);
     VeluxGatewayData.firmware_revision_netatmo := IVal (PInt 60);
     VeluxGatewayData.firmware_revision_thirdparty := IVal (PStr "0.18.0");
     VeluxGatewayData.hardware_version := IVal (PInt 1);
     VeluxGatewayData.id := IVal (PStr "m1");
     VeluxGatewayData.is_raining := IVal (PBool false);
     VeluxGatewayData.last_seen := IVal (PInt 1726354813);
     VeluxGatewayData.locked := IVal (PBool true);
     VeluxGatewayData.locking := IVal (PBool false);
     VeluxGatewayData.name := IVal (PStr "Velux");
     VeluxGatewayData.pairing := IVal (PStr "no_pairing");
     VeluxGatewayData.secure := IVal (PBool false);
     VeluxGatewayData.type := IVal (PStr "NXG");
     VeluxGatewayData.wifi_strength := IVal (PInt 50);
     VeluxGatewayData.wifi_state := IVal (PStr "good");
     VeluxGatewayData.outdated_weather_forecast := IVal PNone |}.


(** The home list and the status of both homes arrive. *)
Definition good_cycle : World :=
  {| auth_token := Some token; now := timedelta_seconds 30; sent := [];
     remote := script [ answers 200 (Some homes_body);
                        answers 200 (Some (status_body [PDict shutter_json])) ]
                      (answers 200 (Some (status_body []))) |}.

End Sample.

(** * Properties *)

Local Open Scope list_scope.

(** ** Values *)

Lemma py_eq_str (v : pyval) (s : string) :
  py_eq v (PStr s) = true <-> v = PStr s.
Proof.
  destruct v; simpl; split; intros H; try discriminate.
  - apply String.eqb_eq in H. now subst.
  - injection H as ->. apply String.eqb_refl.
Qed.

Lemma is_none_true (v : pyval) : is_none v = true <-> v = PNone.
Proof.
  destruct v; simpl; split; intros H; try discriminate; reflexivity.
Qed.

Lemma case_str_true (v : pyval) (s : string) :
  case_str v s = true <-> v = PStr s.
Proof. apply py_eq_str. Qed.

Lemma str_in_true (k : string) (l : list string) :
  str_in k l = true <-> In k l.
Proof.
  unfold str_in. rewrite existsb_exists. split.
  - intros [x [Hin Heq]]. apply String.eqb_eq in Heq. now subst.
  - intros Hin. exists k. split; [assumption | apply String.eqb_refl].
Qed.

Lemma dict_get_none {V : Type} (k : string) (d : dict V) :
  dict_mem k d = false -> dict_get k d = None.
Proof.
  unfold dict_mem, str_in, dict_keys.
  induction d as [| [k' v] d IH]; simpl; [reflexivity |].
  destruct (String.eqb k k'); simpl; [discriminate | exact IH].
Qed.

Lemma dict_get_some {V : Type} (k : string) (d : dict V) :
  dict_mem k d = true -> exists v, dict_get k d = Some v.
Proof.
  unfold dict_mem, str_in, dict_keys.
  induction d as [| [k' v] d IH]; simpl; [discriminate |].
  destruct (String.eqb k k'); simpl; [now exists v | exact IH].
Qed.

(** ** Token validity *)

Lemma or_zero_id (time : timedelta) : AuthToken.or_zero time = time.
Proof.
  unfold AuthToken.or_zero, timedelta_seconds.
  destruct (Z.eqb_spec time 0); lia.
Qed.

Lemma expires_iff (now : datetime) (tok : AuthToken.t) (m : timedelta) :
  AuthToken.expires now tok m = true <-> AuthToken.remaining now tok < m.
Proof.
  unfold AuthToken.expires, AuthToken.remaining.
  rewrite Z.ltb_lt. lia.
Qed.

Lemma valid_in_true (now : datetime) (tok : AuthToken.t) (m : timedelta) :
  AuthToken.valid_in now tok m = true <->
  AuthToken.access_token tok <> PNone /\ m <= AuthToken.remaining now tok.
Proof.
  unfold AuthToken.valid_in. rewrite or_zero_id.
  rewrite andb_true_iff, !negb_true_iff.
  rewrite <- !not_true_iff_false, is_none_true, expires_iff.
  split; intros [Ha Hm]; (split; [exact Ha | lia]).
Qed.

(** C2, as amended.  For every token whose access token is not [None] and
    every margin [m] (non-negative or not): [valid_in m] is false exactly
    when the remaining margin [expires_at - now] is strictly less than
    [m], [expires m] is true exactly then, and the token is valid when
    the remaining margin equals or exceeds [m]. *)
Theorem valid_in_margin (now : datetime) (tok : AuthToken.t) (m : timedelta)
    (Htoken : AuthToken.access_token tok <> PNone) :
  (AuthToken.valid_in now tok m = false <-> AuthToken.remaining now tok < m)
  /\ (AuthToken.expires now tok m = true <-> AuthToken.remaining now tok < m)
  /\ (m <= AuthToken.remaining now tok -> AuthToken.valid_in now tok m = true).
Proof.
  pose proof (valid_in_true now tok m) as Hv.
  repeat split.
  - intros Hf. destruct (Z.lt_ge_cases (AuthToken.remaining now tok) m) as [H | H];
      [exact H |].
    assert (AuthToken.valid_in now tok m = true) by (apply Hv; auto).
    congruence.
  - intros Hlt. apply not_true_iff_false. intros Ht. apply Hv in Ht. lia.
  - apply expires_iff.
  - apply expires_iff.
  - intros Hle. apply Hv. auto.
Qed.

Lemma valid_in_margin_witness :
  AuthToken.valid_in 0 Sample.token (timedelta_hm 2 59) = true.
Proof.
  apply (valid_in_margin 0 Sample.token (timedelta_hm 2 59)).
  - discriminate.
  - vm_compute. discriminate.
Defined.

(** C2 as stated fails: a token built from a response whose access token
    is [null] has, at its issue time, three hours of margin left, which
    exceeds the margin [0], and is still reported as not valid. *)
Lemma valid_in_null_token :
  AuthToken.init 0 (Sample.token_body PNone (PStr "r") 10800)
    = ok Sample.null_token
  /\ 0 <= AuthToken.remaining 0 Sample.null_token
  /\ AuthToken.expires 0 Sample.null_token 0 = false
  /\ AuthToken.valid_in 0 Sample.null_token 0 = false.
Proof. vm_compute. repeat split; discriminate. Qed.

(** ** Equality of homes *)

(** C5.  Two homes compare by identifier alone: whatever their names and
    extra attributes, homes with identifier ["h1"] are equal, homes with
    different identifiers are unequal, and a home never equals a value
    that is not a home. *)
Theorem VeluxHome_eq_by_id (i1 i2 : string) (n1 n2 : pyval)
    (k1 k2 : dict pyval) (other : pyobj)
    (Hother : forall o, other <> OHome o) :
  VeluxHome__eq__ (VeluxHome.mk (PStr "h1") n1 k1)
                  (OHome (VeluxHome.mk (PStr "h1") n2 k2)) = true
  /\ (i1 <> i2 ->
      VeluxHome__eq__ (VeluxHome.mk (PStr i1) n1 k1)
                      (OHome (VeluxHome.mk (PStr i2) n2 k2)) = false)
  /\ (i1 = i2 ->
      VeluxHome__eq__ (VeluxHome.mk (PStr i1) n1 k1)
                      (OHome (VeluxHome.mk (PStr i2) n2 k2)) = true)
  /\ VeluxHome__eq__ (VeluxHome.mk (PStr i1) n1 k1) other = false.
Proof.
  repeat split.
  - intros Hne. simpl. now apply String.eqb_neq.
  - intros ->. simpl. apply String.eqb_refl.
  - destruct other; try reflexivity. now destruct (Hother h).
Qed.

Lemma VeluxHome_eq_by_id_witness :
  VeluxHome__eq__ Sample.casa (OHome Sample.anything) = true
  /\ VeluxHome__eq__ Sample.casa (OHome Sample.other_home) = false
  /\ VeluxHome__eq__ Sample.casa (OModule Sample.module_h1) = false.
Proof.
  assert (Hm : forall o, OModule Sample.module_h1 <> OHome o) by discriminate.
  destruct (VeluxHome_eq_by_id "h1" "h2" (PStr "Casa") (PStr "anything")
              [("share_info", PBool false)] [] _ Hm) as [H1 [H2 [_ H4]]].
  split; [exact H1 |]. split; [| exact H4].
  assert (Hne : "h1" <> "h2") by discriminate.
  pose proof (VeluxHome_eq_by_id "h1" "h2" (PStr "Casa") (PStr "Casa")
                [("share_info", PBool false)] [] _ Hm) as [_ [H2' _]].
  exact (H2' Hne).
Defined.

(** ** The monad and the session *)

Ltac munfold :=
  unfold bind, ret, throw, lift, try_except, datetime_now, get_auth_token,
    set_auth_token, raise_for_status, response_json, ok, raise in *.

Lemma AuthToken_of_json_run (body : pyval) (w : World) :
  AuthToken_of_json body w
  = ((kw <- py_splat body ;; AuthToken.init (now w) kw)%result, w).
Proof.
  unfold AuthToken_of_json. munfold.
  destruct (py_splat body); reflexivity.
Qed.

Lemma request_run (r : Request) (w : World) :
  request r w
  = (match ending (remote w (sent w ++ [r])) with
     | Fails msg => raise (ClientError msg)
     | Answers resp => ok resp
     end, after_request w r).
Proof.
  unfold request, after_request.
  destruct (ending (remote w (sent w ++ [r]))); reflexivity.
Qed.

Lemma refresh_access_token_run (tok : AuthToken.t) (w : World) :
  VeluxActiveAPI.refresh_access_token tok w
  = (refresh_result tok w, after_request w (refresh_grant tok)).
Proof.
  unfold VeluxActiveAPI.refresh_access_token, refresh_result.
  unfold bind at 1. rewrite request_run.
  destruct (ending (remote w (sent w ++ [refresh_grant tok]))) as [msg | resp];
    [reflexivity |].
  unfold bind, raise_for_status, ok, raise, throw, ret.
  destruct (400 <=? status resp); [reflexivity |].
  unfold response_json, throw, ret.
  destruct (json resp) as [body |]; [| reflexivity].
  apply AuthToken_of_json_run.
Qed.


Lemma access_token_run (w : World) (tok : AuthToken.t) :
  auth_token w = Some tok ->
  VeluxActiveAPI.access_token w
  = if AuthToken.valid_in (now w) tok VeluxActiveAPI.safety_margin
    then (ok (AuthToken.access_token tok), w)
    else
      match refresh_result tok w with
      | inl e =>
          (raise (InvalidAuthError "Invalid refresh token" (Some e)),
           after_request w (refresh_grant tok))
      | inr new =>
          (ok (AuthToken.access_token new),
           with_token (after_request w (refresh_grant tok)) new)
      end.
Proof.
  intros Hs.
  unfold VeluxActiveAPI.access_token, VeluxActiveAPI.self_auth_token.
  munfold. rewrite Hs.
  destruct (AuthToken.valid_in (now w) tok VeluxActiveAPI.safety_margin); simpl.
  - rewrite Hs. reflexivity.
  - rewrite Hs. rewrite refresh_access_token_run.
    destruct (refresh_result tok w); reflexivity.
Qed.

Lemma access_token_not_authenticated (w : World) :
  auth_token w = None ->
  VeluxActiveAPI.access_token w
  = (raise (AttributeError "'NoneType' object has no attribute"), w).
Proof.
  intros Hs.
  unfold VeluxActiveAPI.access_token, VeluxActiveAPI.self_auth_token.
  munfold. now rewrite Hs.
Qed.

Lemma authenticate_run (u p : string) (w : World) :
  VeluxActiveAPI.authenticate u p w
  = match authenticate_result u p w with
    | inl e => (raise e, after_request w (password_grant u p))
    | inr tok => (ok tok, with_token (after_request w (password_grant u p)) tok)
    end.
Proof.
  unfold VeluxActiveAPI.authenticate, authenticate_result.
  unfold bind at 1. rewrite request_run.
  destruct (ending (remote w (sent w ++ [password_grant u p]))) as [msg | resp];
    [reflexivity |].
  unfold ok at 1. cbv beta iota.
  destruct (negb (response_ok resp)); [reflexivity |].
  unfold bind, response_json, throw, ret, set_auth_token, ok, raise.
  destruct (json resp) as [body |]; [| reflexivity].
  rewrite AuthToken_of_json_run.
  destruct (rbind (py_splat body) _); reflexivity.
Qed.


(** ** The stored token *)

(** C3.  When the stored token is due for refresh and
    [refresh_access_token] raises, the [access_token] property raises
    [InvalidAuthError] and the stored token is the one stored before;
    in any run of the property the stored token changes only when the
    refresh returned a token, which is then the stored one. *)
Theorem failed_refresh_keeps_token (w : World) (tok : AuthToken.t) (e : exn)
    (w' : World)
    (Hstored : auth_token w = Some tok)
    (Hdue : AuthToken.valid_in (now w) tok VeluxActiveAPI.safety_margin = false)
    (Hfail : VeluxActiveAPI.refresh_access_token tok w = (raise e, w')) :
  VeluxActiveAPI.access_token w
  = (raise (InvalidAuthError "Invalid refresh token" (Some e)), w')
  /\ auth_token w' = auth_token w
  /\ (forall w1 r w2,
        VeluxActiveAPI.access_token w1 = (r, w2) ->
        auth_token w2 <> auth_token w1 ->
        exists old new w3,
          auth_token w1 = Some old
          /\ VeluxActiveAPI.refresh_access_token old w1 = (ok new, w3)
          /\ auth_token w2 = Some new
          /\ r = ok (AuthToken.access_token new)).
Proof.
  rewrite refresh_access_token_run in Hfail. injection Hfail as Hr Hw.
  split; [| split].
  - rewrite (access_token_run w tok Hstored), Hdue, Hr, Hw. reflexivity.
  - subst w'. reflexivity.
  - intros w1 r w2 Hrun Hchg.
    destruct (auth_token w1) as [old |] eqn:Hold.
    + rewrite (access_token_run w1 old Hold) in Hrun.
      destruct (AuthToken.valid_in (now w1) old VeluxActiveAPI.safety_margin).
      * injection Hrun as _ Hw2. subst w2. congruence.
      * destruct (refresh_result old w1) as [e1 | new] eqn:Hres.
        -- injection Hrun as _ Hw2. subst w2. simpl in Hchg. congruence.
        -- injection Hrun as Hr2 Hw2. subst w2 r.
           exists old, new, (after_request w1 (refresh_grant old)).
           rewrite refresh_access_token_run, Hres. auto.
    + rewrite (access_token_not_authenticated w1 Hold) in Hrun.
      injection Hrun as _ Hw2. subst w2. congruence.
Qed.

Lemma failed_refresh_keeps_token_witness :
  exists e w',
    VeluxActiveAPI.access_token Sample.stale_world
    = (raise (InvalidAuthError "Invalid refresh token" (Some e)), w')
    /\ auth_token w' = Some Sample.token.
Proof.
  exists (ClientResponseError 401).
  exists (after_request Sample.stale_world (refresh_grant Sample.token)).
  destruct (failed_refresh_keeps_token Sample.stale_world Sample.token
              (ClientResponseError 401)
              (after_request Sample.stale_world (refresh_grant Sample.token)))
    as [H1 [H2 _]].
  - reflexivity.
  - vm_compute. reflexivity.
  - vm_compute. reflexivity.
  - split; [exact H1 | exact H2].
Defined.



Lemma issued_fields (w0 w0' : World) (body : pyval) (tok : AuthToken.t)
    (v life : pyval) :
  AuthToken_of_json body w0 = (ok tok, w0') ->
  py_getitem body "access_token" = ok v ->
  py_getitem body "expires_in" = ok life ->
  AuthToken.access_token tok = v
  /\ AuthToken.seconds_of life = ok (AuthToken.expires_in tok)
  /\ AuthToken.created_at tok = now w0
  /\ AuthToken.expires_at tok = now w0 + AuthToken.expires_in tok.
Proof.
  rewrite AuthToken_of_json_run. intros Hrun Hv Hlife.
  injection Hrun as Hr _.
  destruct body as [| | | | | kw]; try discriminate Hr.
  simpl in Hr, Hv, Hlife. unfold AuthToken.init in Hr.
  destruct (bind_arguments_rest _ _ kw) as [e | []]; [discriminate |].
  simpl in Hr. unfold arg in Hr.
  destruct (dict_get "access_token" kw); [| discriminate].
  destruct (dict_get "expires_in" kw); [| discriminate].
  injection Hv as ->. injection Hlife as ->.
  destruct (AuthToken.seconds_of life) as [e | secs]; [discriminate |].
  simpl in Hr. injection Hr as <-. simpl. auto.
Qed.

Lemma issued_refresh_token (w0 w0' : World) (body : pyval)
    (tok : AuthToken.t) (r : pyval) :
  AuthToken_of_json body w0 = (ok tok, w0') ->
  py_getitem body "refresh_token" = ok r ->
  AuthToken.refresh_token tok = r.
Proof.
  rewrite AuthToken_of_json_run. intros Hrun Hr.
  injection Hrun as Hi _.
  destruct body as [| | | | | kw]; try discriminate Hi.
  simpl in Hi, Hr. unfold AuthToken.init in Hi.
  destruct (bind_arguments_rest _ _ kw) as [e | []]; [discriminate |].
  simpl in Hi. unfold arg in Hi.
  destruct (dict_get "refresh_token" kw); [| discriminate].
  injection Hr as ->.
  destruct (AuthToken.seconds_of _) as [e | secs]; [discriminate |].
  simpl in Hi. now injection Hi as <-.
Qed.

(** C9, as amended.  Take a token built from a token response whose
    [expires_in] is [10800], whose access token [v] is not [None] and
    whose refresh token is [r], and let it be the stored token.  While
    its remaining margin is at least 2 h 59 min (10740 s) the
    [access_token] property returns [v] and sends nothing.  Once the
    margin is below 2 h 59 min the property posts to the token endpoint
    the form with [refresh_token = r], [grant_type = refresh_token] and
    the client id and secret, and nothing else; it stores and returns
    the token built from an answer with a status below 400, and raises
    [InvalidAuthError] when the refresh raises.  The token expires 10800 s
    after its issue time: queried [d] after its issue time it answers
    valid exactly for the margins [m] with [m + d <= 10800 s], so at
    issue time it is valid for every margin up to 3 h (hence for
    2 h 59 min) and invalid for every margin beyond 3 h. *)
Theorem access_token_three_hour_token (w0 w0' : World) (body : pyval)
    (v r : pyval) (tok : AuthToken.t) (w : World)
    (Hlife : py_getitem body "expires_in" = ok (PInt 10800))
    (Haccess : py_getitem body "access_token" = ok v)
    (Hnonnull : v <> PNone)
    (Hrefresh : py_getitem body "refresh_token" = ok r)
    (Hissued : AuthToken_of_json body w0 = (ok tok, w0'))
    (Hstored : auth_token w = Some tok) :
  let exchange :=
    {| url := "https://app.velux-active.com/oauth2/token";
       data := [ ("refresh_token", r);
                 ("grant_type", PStr "refresh_token");
                 ("client_id", PStr "5931426da127d981e76bdd3f");
                 ("client_secret", PStr "6ae2d89d15e767ae5c56b456b452d319") ] |} in
  (10740 * 1000000 <= AuthToken.expires_at tok - now w ->
     VeluxActiveAPI.access_token w = (ok v, w))
  /\ (AuthToken.expires_at tok - now w < 10740 * 1000000 ->
        sent (snd (VeluxActiveAPI.access_token w)) = sent w ++ [exchange]
        /\ (forall resp body' new,
              ending (remote w (sent w ++ [exchange])) = Answers resp ->
              status resp < 400 ->
              json resp = Some body' ->
              AuthToken_of_json body' (after_request w exchange)
              = (ok new, after_request w exchange) ->
              VeluxActiveAPI.access_token w
              = (ok (AuthToken.access_token new),
                 with_token (after_request w exchange) new))
        /\ (forall e w',
              VeluxActiveAPI.refresh_access_token tok w = (raise e, w') ->
              VeluxActiveAPI.access_token w
              = (raise (InvalidAuthError "Invalid refresh token" (Some e)), w')))
  /\ AuthToken.expires_at tok = now w0 + 10800 * 1000000
  /\ (forall d m,
        AuthToken.valid_in (now w0 + d) tok m = true
        <-> m + d <= 10800 * 1000000)
  /\ (forall m, m <= 10800 * 1000000 ->
        AuthToken.valid_in (now w0) tok m = true)
  /\ (forall m, 10800 * 1000000 < m ->
        AuthToken.valid_in (now w0) tok m = false).
Proof.
  intros exchange.
  destruct (issued_fields _ _ _ _ _ _ Hissued Haccess Hlife)
    as [Ha [Hsec [Hcreated Hexp]]].
  pose proof (issued_refresh_token _ _ _ _ _ Hissued Hrefresh) as Hr.
  simpl in Hsec. injection Hsec as Hsec.
  assert (Hnn : AuthToken.access_token tok <> PNone) by (now rewrite Ha).
  assert (Hx : refresh_grant tok = exchange)
    by (unfold refresh_grant; rewrite Hr; reflexivity).
  assert (Hat : AuthToken.expires_at tok = now w0 + 10800 * 1000000)
    by (rewrite Hexp, <- Hsec; reflexivity).
  assert (Hmargin : VeluxActiveAPI.safety_margin = 10740 * 1000000)
    by reflexivity.
  assert (Hvalid : forall d m,
             AuthToken.valid_in (now w0 + d) tok m = true
             <-> m + d <= 10800 * 1000000).
  { intros d m. rewrite valid_in_true. unfold AuthToken.remaining.
    rewrite Hat.
    split; [intros [_ H] | intros H; split; [exact Hnn |]]; lia. }
  split; [| split; [| split; [| split; [| split]]]].
  - intros Hm. rewrite (access_token_run w tok Hstored).
    assert (Hv : AuthToken.valid_in (now w) tok VeluxActiveAPI.safety_margin = true).
    { apply valid_in_true. split; [exact Hnn |].
      unfold AuthToken.remaining. rewrite Hmargin. exact Hm. }
    rewrite Hv, Ha. reflexivity.
  - intros Hm.
    assert (Hv : AuthToken.valid_in (now w) tok VeluxActiveAPI.safety_margin = false).
    { apply not_true_iff_false. intros Ht. apply valid_in_true in Ht.
      unfold AuthToken.remaining in Ht. rewrite Hmargin in Ht. lia. }
    pose proof (access_token_run w tok Hstored) as Hrun.
    rewrite Hv, Hx in Hrun.
    split; [| split].
    + rewrite Hrun. destruct (refresh_result tok w); reflexivity.
    + intros resp body' new Hend Hst Hjs Hnew. rewrite Hrun.
      assert (Hres : refresh_result tok w = ok new).
      { unfold refresh_result. rewrite Hx, Hend.
        destruct (Z.leb_spec 400 (status resp)) as [Hge | _]; [lia |].
        rewrite Hjs. rewrite AuthToken_of_json_run in Hnew.
        injection Hnew as Hnew. exact Hnew. }
      now rewrite Hres.
    + intros e w' Hfail. rewrite refresh_access_token_run in Hfail.
      injection Hfail as Hres <-. rewrite Hrun, Hres, Hx. reflexivity.
  - exact Hat.
  - exact Hvalid.
  - intros m Hm. replace (now w0) with (now w0 + 0) by lia.
    apply Hvalid. lia.
  - intros m Hm. apply not_true_iff_false. intros Ht.
    replace (now w0) with (now w0 + 0) in Ht by lia.
    apply Hvalid in Ht. lia.
Qed.

Lemma access_token_three_hour_token_witness :
  VeluxActiveAPI.access_token Sample.fresh_world
  = (ok (PStr "a"), Sample.fresh_world).
Proof.
  apply (access_token_three_hour_token Sample.world0 Sample.world0
           (PDict (Sample.token_body (PStr "a") (PStr "r") 10800))
           (PStr "a") (PStr "r") Sample.token Sample.fresh_world).
  - reflexivity.
  - reflexivity.
  - discriminate.
  - reflexivity.
  - reflexivity.
  - reflexivity.
  - vm_compute. discriminate.
Defined.

(** C9 as stated fails: the token built at instant [0] from a response
    with [expires_in = 10800] answers valid, at its issue time, for the
    margin 2 h 59 min 30 s (10770 s), which is beyond 2 h 59 min
    (10740 s). *)
Lemma token_valid_beyond_2h59m :
  AuthToken.init 0 (Sample.token_body (PStr "a") (PStr "r") 10800)
    = ok Sample.token
  /\ AuthToken.created_at Sample.token = 0
  /\ 10740 * 1000000 < 10770 * 1000000
  /\ AuthToken.valid_in 0 Sample.token (10770 * 1000000) = true.
Proof. vm_compute. repeat split. Qed.

(** ** The record mapper *)

Lemma str_nodup_app (l l' : list string) (k : string) :
  str_nodup (l ++ l') = true -> In k l' -> str_in k l = false.
Proof.
  induction l as [| x l IH]; simpl; [reflexivity |].
  rewrite andb_true_iff, negb_true_iff. intros [Hx Hl] Hin.
  rewrite (IH Hl Hin), orb_false_r.
  destruct (String.eqb_spec k x) as [-> | Hne]; [| reflexivity].
  assert (Hc : str_in x (l ++ l') = true)
    by (apply str_in_true, in_or_app; now right).
  congruence.
Qed.

Lemma getitem_core (status : VeluxModule.t) :
  str_nodup (VeluxModule.keys status) = true ->
  VeluxModule.getitem status "id" = ok (IVal (VeluxModule.id status))
  /\ VeluxModule.getitem status "type" = ok (IVal (VeluxModule.type status))
  /\ VeluxModule.getitem status "home" = ok (IHome (VeluxModule.home status)).
Proof.
  intros Hnd. unfold VeluxModule.keys in Hnd.
  assert (Hk : forall k, In k ["id"; "type"; "home"] ->
                 dict_get k (VeluxModule.kwargs status) = None).
  { intros k Hin. apply dict_get_none. unfold dict_mem.
    exact (str_nodup_app _ _ k Hnd Hin). }
  unfold VeluxModule.getitem.
  rewrite !Hk by (simpl; auto). auto.
Qed.

Lemma getitem_key (status : VeluxModule.t) (k : string) :
  In k (VeluxModule.keys status) ->
  exists v, VeluxModule.getitem status k = ok v.
Proof.
  unfold VeluxModule.keys, VeluxModule.getitem. intros Hin.
  destruct (dict_get k (VeluxModule.kwargs status)) as [v |] eqn:Hget;
    [now exists (IVal v) |].
  apply in_app_or in Hin. destruct Hin as [Hin | Hin].
  - apply str_in_true in Hin. destruct (dict_get_some k _ Hin) as [v Hv].
    congruence.
  - simpl in Hin. destruct Hin as [<- | [<- | [<- | []]]]; eexists; reflexivity.
Qed.

Lemma rmap_items {V : Type} (f : string -> result V) (l : list string) :
  (forall k, In k l -> exists v, f k = ok v) ->
  exists kw,
    rmap (fun k => (v <- f k ;; ok (k, v))%result) l = ok kw
    /\ dict_keys kw = l
    /\ (forall k v, In k l -> f k = ok v -> dict_get k kw = Some v).
Proof.
  induction l as [| k0 l IH]; intros Hall.
  - exists []. simpl. repeat split. intros k v [].
  - destruct (Hall k0 (or_introl eq_refl)) as [v0 Hv0].
    destruct IH as [kw [Hrun [Hkeys Hget]]];
      [intros k Hin; apply Hall; now right |].
    exists ((k0, v0) :: kw). simpl. rewrite Hv0. simpl. rewrite Hrun. simpl.
    repeat split.
    + now rewrite Hkeys.
    + intros k v Hin Hv.
      destruct (String.eqb_spec k k0) as [-> | Hne];
        [unfold ok in *; congruence |].
      apply Hget; [| exact Hv]. destruct Hin; [congruence | assumption].
Qed.

(** What [**status] followed by the binding of the keywords comes to. *)
Lemma splat_bind (required optional : list string) (status : VeluxModule.t) :
  if fits required optional status
  then exists kw,
         VeluxModule.splat status = ok kw
         /\ bind_arguments required optional kw = ok tt
         /\ arg kw "id" no_value = IVal (VeluxModule.id status)
  else (exists msg, VeluxModule.splat status = raise (TypeError msg))
       \/ (exists kw msg,
             VeluxModule.splat status = ok kw
             /\ bind_arguments required optional kw = raise (TypeError msg)).
Proof.
  unfold fits, VeluxModule.splat.
  destruct (str_nodup (VeluxModule.keys status)) eqn:Hnd; simpl;
    [| left; eexists; reflexivity].
  destruct (rmap_items (VeluxModule.getitem status) (VeluxModule.keys status)
              (getitem_key status)) as [kw [Hrun [Hkeys Hget]]].
  destruct (getitem_core status Hnd) as [Hid _].
  assert (Harg : arg kw "id" no_value = IVal (VeluxModule.id status)).
  { unfold arg. rewrite (Hget "id" _ (ltac:(unfold VeluxModule.keys;
      apply in_or_app; right; simpl; auto)) Hid). reflexivity. }
  assert (Hbind : bind_arguments required optional kw
                  = if negb (forallb (fun k => str_in k (required ++ optional))
                               (VeluxModule.keys status))
                    then raise (TypeError "got an unexpected keyword argument")
                    else if negb (forallb (fun p => str_in p (VeluxModule.keys status))
                                    required)
                    then raise (TypeError "missing required positional arguments")
                    else ok tt).
  { unfold bind_arguments, dict_mem. now rewrite Hkeys. }
  destruct (forallb _ (VeluxModule.keys status)); simpl in *.
  - destruct (forallb _ required); simpl in *.
    + exists kw. auto.
    + right. exists kw. eexists. split; [exact Hrun | exact Hbind].
  - right. exists kw. eexists. split; [exact Hrun | exact Hbind].
Qed.

Lemma case_str_false (v : pyval) (s : string) :
  v <> PStr s -> case_str v s = false.
Proof.
  intros Hne. apply not_true_iff_false. intros Ht.
  now apply case_str_true in Ht.
Qed.

Lemma case_str_refl (s : string) : case_str (PStr s) s = true.
Proof. now apply case_str_true. Qed.

Ltac use_splat_bind required optional status :=
  pose proof (splat_bind required optional status) as Hsb;
  unfold built;
  destruct (fits required optional status);
  [ destruct Hsb as [kw [Hsplat [Hbind Hid]]]
  | destruct Hsb as [[msg Hsplat] | [kw [msg [Hsplat Hbind]]]] ].

(** C1, as amended.  The discriminator selects the constructor: type
    ["NXG"] the gateway, ["NXS"] the switch, ["NXO"] with [velux_type]
    ["shutter"] the shutter and with ["window"] the window.  The
    selected constructor yields its record, with the identifier of the
    raw record, when the keys of the raw record fit the fields of the
    dataclass, and raises [TypeError] otherwise.  An ["NXO"] record whose
    [velux_type] is neither ["shutter"] nor ["window"] and a record of any
    other type yield [None]. *)
Theorem convert_discriminator (status : VeluxModule.t) :
  (VeluxModule.type status = PStr "NXG" ->
     built VeluxGatewayData.required VeluxGatewayData.optional is_gateway status)
  /\ (VeluxModule.type status = PStr "NXS" ->
        built VeluxSwitchData.required VeluxSwitchData.optional is_switch status)
  /\ (VeluxModule.type status = PStr "NXO" ->
      forall v, dict_get "velux_type" (VeluxModule.kwargs status) = Some v ->
        (v = PStr "shutter" ->
           built VeluxShutterData.required VeluxShutterData.optional
                 is_shutter status)
        /\ (v = PStr "window" ->
              built VeluxWindowData.required VeluxWindowData.optional
                    is_window status)
        /\ (v <> PStr "shutter" -> v <> PStr "window" ->
              _convert_status_to_sensor status = ok None))
  /\ (VeluxModule.type status <> PStr "NXG" ->
      VeluxModule.type status <> PStr "NXS" ->
      VeluxModule.type status <> PStr "NXO" ->
      _convert_status_to_sensor status = ok None).
Proof.
  split; [| split; [| split]].
  - intros Ht.
    use_splat_bind VeluxGatewayData.required VeluxGatewayData.optional status;
      unfold _convert_status_to_sensor, VeluxGatewayData.init;
      rewrite Ht; simpl case_str; cbv iota; rewrite Hsplat; simpl rbind;
      try rewrite Hbind; simpl rbind.
    + eexists. split; [reflexivity |]. split; [eexists; reflexivity |].
      simpl. exact Hid.
    + eexists; reflexivity.
    + eexists; reflexivity.
  - intros Ht.
    use_splat_bind VeluxSwitchData.required VeluxSwitchData.optional status;
      unfold _convert_status_to_sensor, VeluxSwitchData.init;
      rewrite Ht; simpl case_str; cbv iota; rewrite Hsplat; simpl rbind;
      try rewrite Hbind; simpl rbind.
    + eexists. split; [reflexivity |]. split; [eexists; reflexivity |].
      simpl. exact Hid.
    + eexists; reflexivity.
    + eexists; reflexivity.
  - intros Ht v Hv.
    assert (Hget : VeluxModule.getitem status "velux_type" = ok (IVal v))
      by (unfold VeluxModule.getitem; now rewrite Hv).
    split; [| split].
    + intros ->.
      use_splat_bind VeluxShutterData.required VeluxShutterData.optional status;
        unfold _convert_status_to_sensor, VeluxShutterData.init;
        rewrite Ht, Hget; simpl case_str; cbv iota; simpl rbind;
        simpl item_case_str; cbv iota; rewrite Hsplat; simpl rbind;
        try rewrite Hbind; simpl rbind.
      * eexists. split; [reflexivity |]. split; [eexists; reflexivity |].
        simpl. exact Hid.
      * eexists; reflexivity.
      * eexists; reflexivity.
    + intros ->.
      use_splat_bind VeluxWindowData.required VeluxWindowData.optional status;
        unfold _convert_status_to_sensor, VeluxWindowData.init;
        rewrite Ht, Hget; simpl case_str; cbv iota; simpl rbind;
        simpl item_case_str; cbv iota; rewrite Hsplat; simpl rbind;
        try rewrite Hbind; simpl rbind.
      * eexists. split; [reflexivity |]. split; [eexists; reflexivity |].
        simpl. exact Hid.
      * eexists; reflexivity.
      * eexists; reflexivity.
    + intros Hs Hw. unfold _convert_status_to_sensor.
      rewrite Ht, Hget. simpl case_str. cbv iota. simpl rbind.
      unfold item_case_str.
      now rewrite (case_str_false v "shutter" Hs), (case_str_false v "window" Hw).
  - intros Hg Hs Ho. unfold _convert_status_to_sensor.
    now rewrite (case_str_false _ _ Hg), (case_str_false _ _ Hs),
      (case_str_false _ _ Ho).
Qed.

Lemma convert_discriminator_witness :
  exists d,
    _convert_status_to_sensor Sample.shutter = ok (Some d)
    /\ is_shutter d
    /\ device_id d = IVal (PStr "s1").
Proof.
  destruct (convert_discriminator Sample.shutter) as [_ [_ [H _]]].
  destruct (H eq_refl (PStr "shutter") eq_refl) as [Hs _].
  exact (Hs eq_refl).
Defined.

(** C1 as stated fails: the record the module list entry
    [{"id": "m1", "type": "NXG"}] gives has type ["NXG"], and the mapper
    raises [TypeError] on it instead of producing a gateway record. *)
Lemma convert_bare_gateway :
  VeluxModule.init Sample.casa [("id", PStr "m1"); ("type", PStr "NXG")]
    = ok Sample.bare_gateway
  /\ VeluxModule.type Sample.bare_gateway = PStr "NXG"
  /\ _convert_status_to_sensor Sample.bare_gateway
     = raise (TypeError "missing required positional arguments").
Proof. vm_compute. repeat split. Qed.

(** ** The refresh cycle *)

Lemma update_homes_step (home : VeluxHome.t) (rest : list VeluxHome.t)
    (data : snapshot) (w : World) :
  update_homes (home :: rest) data w
  = match VeluxActiveAPI.get_home_statuses home w with
    | (inl e, w') => (inl e, w')
    | (inr statuses, w') =>
        match convert_statuses statuses [] with
        | inl e => (inl e, w')
        | inr devices =>
            match snapshot_setitem data home devices with
            | inl e => (inl e, w')
            | inr data' => update_homes rest data' w'
            end
        end
    end.
Proof.
  simpl. unfold bind at 1.
  destruct (VeluxActiveAPI.get_home_statuses home w) as [[e | statuses] w'];
    [reflexivity |].
  unfold bind, lift.
  destruct (convert_statuses statuses []); [reflexivity |].
  destruct (snapshot_setitem data home l); reflexivity.
Qed.

Lemma update_homes_app (pre rest : list VeluxHome.t) :
  forall (data : snapshot) (w : World),
    update_homes (pre ++ rest) data w
    = match update_homes pre data w with
      | (inl e, w') => (inl e, w')
      | (inr data', w') => update_homes rest data' w'
      end.
Proof.
  induction pre as [| home pre IH]; intros data w; [reflexivity |].
  rewrite <- app_comm_cons, !update_homes_step.
  destruct (VeluxActiveAPI.get_home_statuses home w) as [[e | statuses] w'];
    [reflexivity |].
  destruct (convert_statuses statuses []); [reflexivity |].
  destruct (snapshot_setitem data home l); [reflexivity | apply IH].
Qed.

Lemma convert_statuses_stops (before after : list VeluxModule.t)
    (status : VeluxModule.t) (e : exn) :
  _convert_status_to_sensor status = raise e ->
  forall devices devices',
    convert_statuses before devices = ok devices' ->
    convert_statuses (before ++ status :: after) devices = raise e.
Proof.
  intros Hbad. induction before as [| s before IH]; intros devices devices'.
  - intros _. simpl. now rewrite Hbad.
  - simpl. destruct (_convert_status_to_sensor s) as [e0 | [d |]]; simpl.
    + discriminate.
    + apply IH.
    + apply IH.
Qed.

Lemma update_body_run (w : World) :
  update_body w
  = match VeluxActiveAPI.get_home_data w with
    | (inl e, w') => (inl e, w')
    | (inr homes, w') => update_homes homes [] w'
    end.
Proof. reflexivity. Qed.

Lemma async_update_data_run (entry : ConfigEntry) (w : World) :
  async_update_data entry w
  = match update_body w with
    | (inr data, w') => (ok data, w')
    | (inl e, w') =>
        if is_InvalidAuthError e then
          match VeluxActiveAPI.authenticate (username entry) (password entry) w' with
          | (inl e', w'') => (raise e', w'')
          | (inr _, w'') => (raise (UpdateFailed Reauthenticated e), w'')
          end
        else (raise (UpdateFailed CommunicationError e), w')
    end.
Proof.
  unfold async_update_data, try_except.
  destruct (update_body w) as [[e | data] w']; [| reflexivity].
  destruct (is_InvalidAuthError e); [| reflexivity].
  unfold bind, throw.
  destruct (VeluxActiveAPI.authenticate _ _ w') as [[e' | tok] w'']; reflexivity.
Qed.

(** The cycle up to the home whose status is fetched in world [w1]. *)
Lemma update_body_reaches (w w0 w1 : World) (pre post : list VeluxHome.t)
    (home : VeluxHome.t) (data1 : snapshot) :
  VeluxActiveAPI.get_home_data w = (ok (pre ++ home :: post), w0) ->
  update_homes pre [] w0 = (ok data1, w1) ->
  update_body w = update_homes (home :: post) data1 w1.
Proof.
  intros Hhomes Hpre. rewrite update_body_run, Hhomes.
  unfold ok. rewrite update_homes_app, Hpre. reflexivity.
Qed.

(** C8.  When the home list has been fetched, the homes before [home]
    have been processed and the status fetch for [home] raises, the body
    of the cycle stops there (no later home is fetched: the world is the
    one the failed fetch left), and the cycle raises and returns no
    mapping; the failure is [UpdateFailed] unless it is an authentication
    error.  A cycle returns a mapping only when its whole body did. *)
Theorem cycle_all_or_nothing (entry : ConfigEntry) (w w0 w1 w2 : World)
    (pre post : list VeluxHome.t) (home : VeluxHome.t) (data1 : snapshot)
    (e : exn)
    (Hhomes : VeluxActiveAPI.get_home_data w = (ok (pre ++ home :: post), w0))
    (Hpre : update_homes pre [] w0 = (ok data1, w1))
    (Hfail : VeluxActiveAPI.get_home_statuses home w1 = (raise e, w2)) :
  update_body w = (raise e, w2)
  /\ (exists e' w3, async_update_data entry w = (raise e', w3))
  /\ (forall data w3, async_update_data entry w <> (ok data, w3))
  /\ (is_InvalidAuthError e = false ->
      async_update_data entry w
      = (raise (UpdateFailed CommunicationError e), w2))
  /\ (forall w4 data w5,
        async_update_data entry w4 = (ok data, w5) ->
        update_body w4 = (ok data, w5)).
Proof.
  assert (Hbody : update_body w = (raise e, w2)).
  { rewrite (update_body_reaches w w0 w1 pre post home data1 Hhomes Hpre).
    rewrite update_homes_step, Hfail. reflexivity. }
  assert (Hraises : exists e' w3, async_update_data entry w = (raise e', w3)).
  { rewrite async_update_data_run, Hbody. unfold raise.
    destruct (is_InvalidAuthError e); [| eauto].
    destruct (VeluxActiveAPI.authenticate _ _ w2) as [[e' | tok] w3]; eauto. }
  split; [exact Hbody |]. split; [exact Hraises |]. split; [| split].
  - intros data w3 Hok. destruct Hraises as [e' [w3' Hr]].
    rewrite Hr in Hok. discriminate.
  - intros Hother. rewrite async_update_data_run, Hbody. unfold raise.
    now rewrite Hother.
  - intros w4 data w5. rewrite async_update_data_run.
    destruct (update_body w4) as [[e4 | d4] w4']; [| now intros H].
    destruct (is_InvalidAuthError e4); [| discriminate].
    destruct (VeluxActiveAPI.authenticate _ _ w4') as [[e' | tok] w'']; discriminate.
Qed.

Lemma cycle_all_or_nothing_witness :
  exists w2,
    async_update_data Sample.entry Sample.second_home_fails
    = (raise (UpdateFailed CommunicationError (ClientResponseError 500)), w2).
Proof.
  eexists.
  apply (cycle_all_or_nothing Sample.entry Sample.second_home_fails
           (snd (VeluxActiveAPI.get_home_data Sample.second_home_fails))
           (snd (update_homes [Sample.home1] []
                   (snd (VeluxActiveAPI.get_home_data Sample.second_home_fails))))
           _ [Sample.home1] [] Sample.home2
           [(Sample.home1,
             match _convert_status_to_sensor Sample.shutter with
             | inr (Some d) => [d]
             | _ => []
             end)]
           (ClientResponseError 500)).
  - vm_compute. reflexivity.
  - vm_compute. reflexivity.
  - vm_compute. reflexivity.
  - reflexivity.
Defined.

(** C10.  An ["NXO"] record without ["velux_type"] among its extra
    attributes makes the mapper raise [KeyError]; a cycle that meets such
    a record, the records before it in the same home having been mapped,
    raises [UpdateFailed] carrying that [KeyError]. *)
Theorem nxo_without_velux_type (status : VeluxModule.t)
    (Htype : VeluxModule.type status = PStr "NXO")
    (Hmissing : dict_mem "velux_type" (VeluxModule.kwargs status) = false) :
  _convert_status_to_sensor status
  = raise (KeyError "Key 'velux_type' not found in VeluxModule")
  /\ (forall (entry : ConfigEntry) (w w0 w1 w2 : World)
             (pre post : list VeluxHome.t) (home : VeluxHome.t)
             (data1 : snapshot) (before after : list VeluxModule.t)
             (devices : list device),
        VeluxActiveAPI.get_home_data w = (ok (pre ++ home :: post), w0) ->
        update_homes pre [] w0 = (ok data1, w1) ->
        VeluxActiveAPI.get_home_statuses home w1
        = (ok (before ++ status :: after), w2) ->
        convert_statuses before [] = ok devices ->
        async_update_data entry w
        = (raise (UpdateFailed CommunicationError
                    (KeyError "Key 'velux_type' not found in VeluxModule")), w2)).
Proof.
  assert (Hkey : _convert_status_to_sensor status
                 = raise (KeyError "Key 'velux_type' not found in VeluxModule")).
  { unfold _convert_status_to_sensor, VeluxModule.getitem.
    rewrite Htype, (dict_get_none _ _ Hmissing). reflexivity. }
  split; [exact Hkey |].
  intros entry w w0 w1 w2 pre post home data1 before after devices
    Hhomes Hpre Hstatuses Hbefore.
  rewrite async_update_data_run.
  rewrite (update_body_reaches w w0 w1 pre post home data1 Hhomes Hpre).
  rewrite update_homes_step, Hstatuses. unfold ok at 1.
  rewrite (convert_statuses_stops before after status _ Hkey [] devices Hbefore).
  reflexivity.
Qed.

Lemma nxo_without_velux_type_witness :
  _convert_status_to_sensor Sample.plain_nxo
  = raise (KeyError "Key 'velux_type' not found in VeluxModule")
  /\ exists w2,
       async_update_data Sample.entry Sample.nxo_cycle
       = (raise (UpdateFailed CommunicationError
                   (KeyError "Key 'velux_type' not found in VeluxModule")), w2).
Proof.
  destruct (nxo_without_velux_type Sample.plain_nxo eq_refl eq_refl)
    as [Hkey Hcycle].
  split; [exact Hkey |].
  eexists.
  apply (Hcycle Sample.entry Sample.nxo_cycle
           (snd (VeluxActiveAPI.get_home_data Sample.nxo_cycle))
           (snd (VeluxActiveAPI.get_home_data Sample.nxo_cycle))
           _ [] [Sample.home2] Sample.home1 [] [Sample.shutter] []
           (match _convert_status_to_sensor Sample.shutter with
            | inr (Some d) => [d]
            | _ => []
            end)).
  - vm_compute. reflexivity.
  - reflexivity.
  - vm_compute. reflexivity.
  - vm_compute. reflexivity.
Defined.

(** What the handler of an authentication error does.  When the body of
    a cycle raises an authentication error, the coordinator posts the
    password grant with the configured username and password.  When that
    re-authentication returns a token the cycle raises [UpdateFailed]
    carrying the authentication error; an exception of the
    re-authentication itself is raised inside the handler and is what
    the cycle ends with. *)
Theorem reauthentication_on_auth_error (entry : ConfigEntry) (w w1 : World)
    (e : exn)
    (Hbody : update_body w = (raise e, w1))
    (Hauth : is_InvalidAuthError e = true) :
  sent (snd (async_update_data entry w))
  = sent w1 ++ [password_grant (username entry) (password entry)]
  /\ (forall tok w2,
        VeluxActiveAPI.authenticate (username entry) (password entry) w1
        = (ok tok, w2) ->
        async_update_data entry w = (raise (UpdateFailed Reauthenticated e), w2))
  /\ (forall e' w2,
        VeluxActiveAPI.authenticate (username entry) (password entry) w1
        = (raise e', w2) ->
        async_update_data entry w = (raise e', w2)).
Proof.
  assert (Hrun0 : async_update_data entry w
                  = match VeluxActiveAPI.authenticate (username entry)
                            (password entry) w1 with
                    | (inl e', w2) => (raise e', w2)
                    | (inr _, w2) => (raise (UpdateFailed Reauthenticated e), w2)
                    end).
  { rewrite async_update_data_run, Hbody.
    change (@raise snapshot e) with (@inl exn snapshot e). cbv iota.
    now rewrite Hauth. }
  rewrite Hrun0. split; [| split].
  - rewrite authenticate_run.
    destruct (authenticate_result _ _ w1); reflexivity.
  - intros tok w2 Hrun. rewrite Hrun. reflexivity.
  - intros e' w2 Hrun. rewrite Hrun. reflexivity.
Qed.

Lemma reauthentication_on_auth_error_witness :
  exists e w2,
    is_InvalidAuthError e = true
    /\ async_update_data Sample.entry Sample.reauth_granted
       = (raise (UpdateFailed Reauthenticated e), w2).
Proof.
  exists (InvalidAuthError "Invalid refresh token" (Some (ClientResponseError 401))).
  eexists. split; [reflexivity |].
  assert (Hbody : update_body Sample.reauth_granted
                  = (raise (InvalidAuthError "Invalid refresh token"
                              (Some (ClientResponseError 401))),
                     snd (update_body Sample.reauth_granted)))
    by (vm_compute; reflexivity).
  destruct (reauthentication_on_auth_error Sample.entry Sample.reauth_granted
              _ _ Hbody eq_refl) as [_ [Hgranted _]].
  eapply Hgranted. vm_compute. reflexivity.
Defined.

(** C6.  The code departs from the claim at this input: the stored token
    is due and the token endpoint rejects the refresh grant and the
    password grant alike.  The body of the cycle raises an authentication
    error and the coordinator posts the password grant with the
    configured username and password, as the claim has it; the rejected
    login then raises [InvalidAuthError] inside the handler, and that
    exception, not [UpdateFailed], is what [async_update_data] ends
    with. *)
Lemma reauthentication_rejected :
  fst (update_body Sample.stale_world)
    = raise (InvalidAuthError "Invalid refresh token"
               (Some (ClientResponseError 401)))
  /\ sent (snd (async_update_data Sample.entry Sample.stale_world))
     = [ {| url := "https://app.velux-active.com/oauth2/token";
            data := [ ("refresh_token", PStr "r");
                      ("grant_type", PStr "refresh_token");
                      ("client_id", PStr "5931426da127d981e76bdd3f");
                      ("client_secret", PStr "6ae2d89d15e767ae5c56b456b452d319") ] |};
         {| url := "https://app.velux-active.com/oauth2/token";
            data := [ ("username", PStr "user@example.org");
                      ("password", PStr "secret");
                      ("grant_type", PStr "password");
                      ("user_prefix", PStr "velux");
                      ("client_id", PStr "5931426da127d981e76bdd3f");
                      ("client_secret", PStr "6ae2d89d15e767ae5c56b456b452d319") ] |} ]
  /\ fst (async_update_data Sample.entry Sample.stale_world)
     = raise (InvalidAuthError "Invalid username or password" None)
  /\ is_UpdateFailed (InvalidAuthError "Invalid username or password" None)
     = false.
Proof. vm_compute. repeat split. Qed.

(** What the handler of the other exceptions does.  An exception other
    than an authentication error raised by the body of a cycle ends the
    cycle wrapped in [UpdateFailed].  An exception a cycle ends with
    that is not [UpdateFailed] was raised by the re-authentication that
    follows an authentication error. *)
Theorem other_errors_become_UpdateFailed (entry : ConfigEntry) (w w1 : World)
    (e : exn)
    (Hbody : update_body w = (raise e, w1))
    (Hother : is_InvalidAuthError e = false) :
  async_update_data entry w = (raise (UpdateFailed CommunicationError e), w1)
  /\ (forall w2 e' w3,
        async_update_data entry w2 = (raise e', w3) ->
        is_UpdateFailed e' = true
        \/ exists e0 w0,
             update_body w2 = (raise e0, w0)
             /\ is_InvalidAuthError e0 = true
             /\ VeluxActiveAPI.authenticate (username entry) (password entry) w0
                = (raise e', w3)).
Proof.
  split.
  - rewrite async_update_data_run, Hbody. unfold raise at 1. now rewrite Hother.
  - intros w2 e' w3. rewrite async_update_data_run.
    destruct (update_body w2) as [[e0 | data] w0]; [| discriminate].
    destruct (is_InvalidAuthError e0) eqn:Hauth.
    + destruct (VeluxActiveAPI.authenticate _ _ w0) as [[e1 | tok] w4] eqn:Hrun;
        intros H; injection H as <- <-.
      * right. exists e0, w0. auto.
      * now left.
    + intros H. injection H as <- <-. now left.
Qed.

Lemma other_errors_become_UpdateFailed_witness :
  exists w1,
    async_update_data Sample.entry Sample.server_error
    = (raise (UpdateFailed CommunicationError (ClientResponseError 500)), w1).
Proof.
  eexists.
  apply (other_errors_become_UpdateFailed Sample.entry Sample.server_error).
  - vm_compute. reflexivity.
  - reflexivity.
Defined.

(** C7.  The code departs from the claim at this input: the stored token
    is due, the refresh grant is rejected and the token endpoint cannot
    be reached afterwards.  The request of the re-authentication raises
    a connection error inside the handler of the authentication error;
    that error is no authentication error, it is not wrapped, and it,
    not [UpdateFailed], is what [async_update_data] ends with. *)
Lemma connection_error_escapes :
  fst (async_update_data Sample.entry Sample.reauth_unreachable)
    = raise (ClientError "Cannot connect to host")
  /\ is_InvalidAuthError (ClientError "Cannot connect to host") = false
  /\ is_UpdateFailed (ClientError "Cannot connect to host") = false.
Proof. vm_compute. repeat split. Qed.

(** * Further properties *)

(** ** authenticate *)

(** X1.  [authenticate] posts the password grant and nothing else.  When
    it raises, the stored token is the one stored before; a response
    with status 400 or more makes it raise [InvalidAuthError].  When it
    returns a token, that token is the stored one, it was created at the
    clock reading the request ended at, and it satisfies
    [expires_at = created_at + expires_in]. *)
Theorem authenticate_outcome (u p : string) (w : World) :
  match VeluxActiveAPI.authenticate u p w with
  | (inl e, w') =>
      w' = after_request w (password_grant u p)
      /\ auth_token w' = auth_token w
  | (inr tok, w') =>
      w' = with_token (after_request w (password_grant u p)) tok
      /\ auth_token w' = Some tok
      /\ AuthToken.created_at tok = now w'
      /\ AuthToken.invariant tok
  end
  /\ sent (snd (VeluxActiveAPI.authenticate u p w))
     = sent w ++ [password_grant u p]
  /\ (forall resp,
        ending (remote w (sent w ++ [password_grant u p])) = Answers resp ->
        400 <= status resp ->
        fst (VeluxActiveAPI.authenticate u p w)
        = raise (InvalidAuthError "Invalid username or password" None)).
Proof.
  rewrite authenticate_run. split; [| split].
  - destruct (authenticate_result u p w) as [e | tok] eqn:Hres.
    + split; reflexivity.
    + split; [reflexivity |]. split; [reflexivity |].
      unfold authenticate_result in Hres.
      destruct (ending _) as [msg | resp]; [discriminate |].
      destruct (negb (response_ok resp)); [discriminate |].
      destruct (json resp) as [body |]; [| discriminate].
      destruct body as [| | | | | kw]; try discriminate Hres.
      simpl in Hres. unfold AuthToken.init in Hres.
      destruct (bind_arguments_rest _ _ kw) as [e | []]; [discriminate |].
      simpl in Hres.
      destruct (AuthToken.seconds_of _) as [e | life]; [discriminate |].
      simpl in Hres. injection Hres as <-. split; reflexivity.
  - destruct (authenticate_result u p w); reflexivity.
  - intros resp Hend Hbad. unfold authenticate_result. rewrite Hend.
    unfold response_ok.
    destruct (Z.ltb_spec (status resp) 400) as [Hlt | Hge]; [lia |].
    reflexivity.
Qed.

Lemma authenticate_outcome_witness :
  fst (VeluxActiveAPI.authenticate "user@example.org" "secret" Sample.stale_world)
  = raise (InvalidAuthError "Invalid username or password" None).
Proof.
  destruct (authenticate_outcome "user@example.org" "secret" Sample.stale_world)
    as [_ [_ H]].
  apply (H {| status := 401; json := None |}).
  - reflexivity.
  - vm_compute. discriminate.
Defined.

(** ** The data requests *)

Lemma get_home_data_run (w : World) :
  VeluxActiveAPI.get_home_data w
  = match VeluxActiveAPI.access_token w with
    | (inl e, w1) => (inl e, w1)
    | (inr token, w1) =>
        (fetched (gethomedata_request token) homes_of_json w1,
         after_request w1 (gethomedata_request token))
    end.
Proof.
  unfold VeluxActiveAPI.get_home_data. unfold bind at 1.
  destruct (VeluxActiveAPI.access_token w) as [[e | token] w1]; [reflexivity |].
  unfold bind at 1. fold (gethomedata_request token). rewrite request_run.
  unfold fetched.
  destruct (ending (remote w1 (sent w1 ++ [gethomedata_request token])))
    as [msg | resp]; [reflexivity |].
  unfold ok at 1. cbv iota.
  unfold bind, raise_for_status, throw, ret, ok, raise.
  destruct (400 <=? status resp); [reflexivity |].
  unfold response_json, throw, ret.
  destruct (json resp) as [v |]; [| reflexivity].
  change (@ok pyval v) with (@inr exn pyval v). cbv beta iota.
  unfold homes_of_json, lift.
  destruct (py_getitem v "body") as [e | body]; [reflexivity |].
  simpl rbind.
  destruct (py_getitem body "homes") as [e | homes]; [reflexivity |].
  simpl rbind.
  destruct (py_iter homes) as [e | elements]; reflexivity.
Qed.

Lemma get_home_statuses_run (home : VeluxHome.t) (w : World) :
  VeluxActiveAPI.get_home_statuses home w
  = match VeluxActiveAPI.access_token w with
    | (inl e, w1) => (inl e, w1)
    | (inr token, w1) =>
        (fetched (homestatus_request token home) (modules_of_json home) w1,
         after_request w1 (homestatus_request token home))
    end.
Proof.
  unfold VeluxActiveAPI.get_home_statuses. unfold bind at 1.
  destruct (VeluxActiveAPI.access_token w) as [[e | token] w1]; [reflexivity |].
  unfold bind at 1. fold (homestatus_request token home). rewrite request_run.
  unfold fetched.
  destruct (ending (remote w1 (sent w1 ++ [homestatus_request token home])))
    as [msg | resp]; [reflexivity |].
  unfold ok at 1. cbv iota.
  unfold bind, raise_for_status, throw, ret, ok, raise.
  destruct (400 <=? status resp); [reflexivity |].
  unfold response_json, throw, ret.
  destruct (json resp) as [v |]; [| reflexivity].
  change (@ok pyval v) with (@inr exn pyval v). cbv beta iota.
  unfold modules_of_json, lift.
  destruct (py_getitem v "body") as [e | body]; [reflexivity |].
  simpl rbind.
  destruct (py_getitem body "home") as [e | home_json]; [reflexivity |].
  simpl rbind.
  destruct (py_getitem home_json "modules") as [e | modules]; [reflexivity |].
  simpl rbind.
  destruct (py_iter modules) as [e | elements]; reflexivity.
Qed.

(** X2.  With no token stored (before [authenticate] has succeeded) the
    [access_token] property and both data requests raise
    [AttributeError] and send nothing, and a cycle raises [UpdateFailed]
    for a communication error: it sends nothing either and does not
    re-authenticate. *)
Theorem unauthenticated_cycle (entry : ConfigEntry) (w : World)
    (Hnone : auth_token w = None) :
  VeluxActiveAPI.access_token w
  = (raise (AttributeError "'NoneType' object has no attribute"), w)
  /\ VeluxActiveAPI.get_home_data w
     = (raise (AttributeError "'NoneType' object has no attribute"), w)
  /\ (forall home,
        VeluxActiveAPI.get_home_statuses home w
        = (raise (AttributeError "'NoneType' object has no attribute"), w))
  /\ async_update_data entry w
     = (raise (UpdateFailed CommunicationError
                 (AttributeError "'NoneType' object has no attribute")), w).
Proof.
  pose proof (access_token_not_authenticated w Hnone) as Ha.
  assert (Hd : VeluxActiveAPI.get_home_data w
               = (raise (AttributeError "'NoneType' object has no attribute"), w))
    by (rewrite get_home_data_run, Ha; reflexivity).
  split; [exact Ha |]. split; [exact Hd |]. split.
  - intros home. rewrite get_home_statuses_run, Ha. reflexivity.
  - rewrite async_update_data_run, update_body_run, Hd. reflexivity.
Qed.

Lemma unauthenticated_cycle_witness :
  async_update_data Sample.entry Sample.world0
  = (raise (UpdateFailed CommunicationError
              (AttributeError "'NoneType' object has no attribute")),
     Sample.world0).
Proof.
  apply (unauthenticated_cycle Sample.entry Sample.world0). reflexivity.
Defined.

(** X3.  A data request carries the access token that is stored when it
    is sent.  With the stored token not due, [get_home_data] sends the
    one request, carrying that token.  With the stored token due, it
    first posts the refresh grant: when the refresh fails nothing else
    is sent and the stored token stays; when it returns a token, that
    token is stored and it is the one the data request carries.  The
    same holds for [get_home_statuses], whose request also carries the
    identifier of the home. *)
Theorem data_request_token (w : World) (tok : AuthToken.t)
    (home : VeluxHome.t)
    (Hstored : auth_token w = Some tok) :
  (if AuthToken.valid_in (now w) tok VeluxActiveAPI.safety_margin
   then
     snd (VeluxActiveAPI.get_home_data w)
     = after_request w (gethomedata_request (AuthToken.access_token tok))
     /\ snd (VeluxActiveAPI.get_home_statuses home w)
        = after_request w
            (homestatus_request (AuthToken.access_token tok) home)
   else
     match refresh_result tok w with
     | inl e =>
         VeluxActiveAPI.get_home_data w
         = (raise (InvalidAuthError "Invalid refresh token" (Some e)),
            after_request w (refresh_grant tok))
         /\ VeluxActiveAPI.get_home_statuses home w
            = (raise (InvalidAuthError "Invalid refresh token" (Some e)),
               after_request w (refresh_grant tok))
     | inr new =>
         snd (VeluxActiveAPI.get_home_data w)
         = after_request (with_token (after_request w (refresh_grant tok)) new)
             (gethomedata_request (AuthToken.access_token new))
         /\ snd (VeluxActiveAPI.get_home_statuses home w)
            = after_request
                (with_token (after_request w (refresh_grant tok)) new)
                (homestatus_request (AuthToken.access_token new) home)
     end).
Proof.
  rewrite get_home_data_run, get_home_statuses_run.
  rewrite (access_token_run w tok Hstored).
  destruct (AuthToken.valid_in (now w) tok VeluxActiveAPI.safety_margin).
  - split; reflexivity.
  - destruct (refresh_result tok w); split; reflexivity.
Qed.

Lemma data_request_token_witness :
  sent (snd (VeluxActiveAPI.get_home_data Sample.fresh_world))
  = [ gethomedata_request (PStr "a") ].
Proof.
  pose proof (data_request_token Sample.fresh_world Sample.token Sample.home1
                eq_refl) as H.
  change (AuthToken.valid_in (now Sample.fresh_world) Sample.token
            VeluxActiveAPI.safety_margin) with true in H.
  destruct H as [H _]. rewrite H. reflexivity.
Defined.

(** ** Dicts *)

Lemma dict_get_mem {V : Type} (k : string) (d : dict V) (v : V) :
  dict_get k d = Some v -> dict_mem k d = true.
Proof.
  intros Hget. destruct (dict_mem k d) eqn:Hm; [reflexivity |].
  rewrite (dict_get_none k d Hm) in Hget. discriminate.
Qed.

Lemma dict_get_remove_neq {V : Type} (k key : string) (d : dict V) :
  k <> key -> dict_get k (dict_remove key d) = dict_get k d.
Proof.
  intros Hne. induction d as [| [k' v] d IH]; simpl; [reflexivity |].
  destruct (String.eqb_spec key k') as [<- | Hk].
  - rewrite IH. destruct (String.eqb_spec k key); [contradiction | reflexivity].
  - simpl. now rewrite IH.
Qed.

Lemma dict_mem_remove {V : Type} (k key : string) (d : dict V) :
  dict_mem k (dict_remove key d)
  = if String.eqb k key then false else dict_mem k d.
Proof.
  unfold dict_mem, str_in, dict_keys.
  induction d as [| [k' v] d IH]; simpl.
  - now destruct (String.eqb k key).
  - destruct (String.eqb_spec key k') as [<- | Hk]; simpl.
    + rewrite IH. destruct (String.eqb k key); reflexivity.
    + rewrite IH. destruct (String.eqb_spec k key) as [-> | Hne].
      * destruct (String.eqb_spec key k'); [contradiction | reflexivity].
      * reflexivity.
Qed.

Lemma str_nodup_remove {V : Type} (key : string) (d : dict V) :
  str_nodup (dict_keys d) = true ->
  str_nodup (dict_keys (dict_remove key d)) = true.
Proof.
  induction d as [| [k' v] d IH]; simpl; [reflexivity |].
  rewrite andb_true_iff, negb_true_iff. intros [Hk Hd].
  destruct (String.eqb key k'); [now apply IH |].
  simpl. rewrite (IH Hd), andb_true_r, negb_true_iff.
  pose proof (dict_mem_remove k' key d) as Hm. unfold dict_mem in Hm.
  rewrite Hm. fold (dict_keys d) in Hk. rewrite Hk.
  now destruct (String.eqb k' key).
Qed.

Lemma str_nodup_app_intro (l l' : list string) :
  str_nodup l = true -> str_nodup l' = true ->
  (forall k, In k l' -> str_in k l = false) ->
  str_nodup (l ++ l') = true.
Proof.
  induction l as [| x l IH]; simpl; intros Hl Hl' Hdis; [exact Hl' |].
  rewrite andb_true_iff, negb_true_iff in Hl. destruct Hl as [Hx Hl].
  rewrite andb_true_iff, negb_true_iff. split.
  - apply not_true_iff_false. intros Hin. apply str_in_true in Hin.
    apply in_app_or in Hin. destruct Hin as [Hin | Hin].
    + apply str_in_true in Hin. congruence.
    + specialize (Hdis x Hin). simpl in Hdis. now rewrite String.eqb_refl in Hdis.
  - apply IH; [exact Hl | exact Hl' |].
    intros k Hin. specialize (Hdis k Hin). simpl in Hdis.
    apply orb_false_iff in Hdis. tauto.
Qed.

Lemma rmap_Forall2 {A B : Type} (f : A -> result B) (l : list A) :
  forall r, rmap f l = ok r -> Forall2 (fun a b => f a = ok b) l r.
Proof.
  induction l as [| a l IH]; simpl; intros r Hr.
  - injection Hr as <-. constructor.
  - destruct (f a) as [e | b] eqn:Hb; [discriminate |]. simpl in Hr.
    destruct (rmap f l) as [e | bs]; [discriminate |]. simpl in Hr.
    injection Hr as <-. constructor; [exact Hb | now apply IH].
Qed.

Lemma bind_arguments_rest_ok {V : Type} (taken required : list string)
    (kw : dict V) :
  bind_arguments_rest taken required kw = ok tt
  <-> existsb (fun p => dict_mem p kw) taken = false
      /\ forallb (fun p => dict_mem p kw) required = true.
Proof.
  unfold bind_arguments_rest.
  destruct (existsb _ taken); [split; [discriminate | intros [H _]; discriminate] |].
  destruct (forallb _ required); simpl.
  - split; auto.
  - split; [discriminate | intros [_ H]; discriminate].
Qed.

Lemma bind_arguments_rest_error {V : Type} (taken required : list string)
    (kw : dict V) (e : exn) :
  bind_arguments_rest taken required kw = raise e -> exists msg, e = TypeError msg.
Proof.
  unfold bind_arguments_rest.
  destruct (existsb _ taken); [intros H; injection H as <-; eauto |].
  destruct (negb _); [intros H; injection H as <-; eauto | discriminate].
Qed.

(** ** The constructors of homes and modules *)

Lemma VeluxHome_init_fields (kw : dict pyval) (h : VeluxHome.t) :
  VeluxHome.init kw = ok h ->
  dict_get "id" kw = Some (VeluxHome.id h)
  /\ dict_get "name" kw = Some (VeluxHome.name h)
  /\ VeluxHome.kwargs h = dict_remove "id" (dict_remove "name" kw)
  /\ dict_mem "self" kw = false.
Proof.
  unfold VeluxHome.init.
  destruct (bind_arguments_rest _ _ kw) as [e0 | []] eqn:Hb; [discriminate |].
  apply bind_arguments_rest_ok in Hb. simpl in Hb. destruct Hb as [Hs Hr].
  rewrite orb_false_r in Hs. rewrite !andb_true_iff in Hr.
  destruct Hr as [Hi [Hn _]].
  destruct (dict_get_some _ _ Hi) as [vi Hvi].
  destruct (dict_get_some _ _ Hn) as [vn Hvn].
  simpl. intros H. injection H as <-. simpl. unfold arg.
  rewrite Hvi, Hvn. tauto.
Qed.

(** X6.  [VeluxHome] called with the items of a dict succeeds exactly
    when the dict has the keys ["id"] and ["name"] and no key ["self"],
    and raises [TypeError] otherwise.  The home it returns has the
    dict's ["id"] and ["name"]; its extra attributes hold neither of the
    two keys and hold every other key with the value the dict has for
    it. *)
Theorem VeluxHome_init_attributes (kw : dict pyval) :
  (forall h, VeluxHome.init kw = ok h ->
     dict_get "id" kw = Some (VeluxHome.id h)
     /\ dict_get "name" kw = Some (VeluxHome.name h)
     /\ dict_mem "id" (VeluxHome.kwargs h) = false
     /\ dict_mem "name" (VeluxHome.kwargs h) = false
     /\ (forall k, k <> "id" -> k <> "name" ->
           dict_get k (VeluxHome.kwargs h) = dict_get k kw))
  /\ ((exists h, VeluxHome.init kw = ok h)
      <-> dict_mem "self" kw = false
          /\ dict_mem "id" kw = true /\ dict_mem "name" kw = true)
  /\ (forall e, VeluxHome.init kw = raise e -> exists msg, e = TypeError msg).
Proof.
  unfold VeluxHome.init.
  destruct (bind_arguments_rest ["self"] ["id"; "name"] kw) as [e0 | []] eqn:Hb.
  - split; [intros h H; discriminate |]. split.
    + split; [intros [h H]; discriminate |].
      intros [Hs [Hi Hn]].
      assert (Hok : bind_arguments_rest ["self"] ["id"; "name"] kw = ok tt).
      { apply bind_arguments_rest_ok. simpl. now rewrite Hs, Hi, Hn. }
      rewrite Hok in Hb. discriminate.
    + intros e H. simpl in H. injection H as <-.
      exact (bind_arguments_rest_error _ _ _ _ Hb).
  - apply bind_arguments_rest_ok in Hb. simpl in Hb. destruct Hb as [Hs Hr].
    rewrite orb_false_r in Hs. rewrite !andb_true_iff in Hr.
    destruct Hr as [Hi [Hn _]].
    destruct (dict_get_some _ _ Hi) as [vi Hvi].
    destruct (dict_get_some _ _ Hn) as [vn Hvn].
    split; [| split].
    + intros h H. simpl in H. injection H as <-. simpl. unfold arg.
      rewrite Hvi, Hvn. repeat split.
      * rewrite dict_mem_remove. reflexivity.
      * rewrite !dict_mem_remove. reflexivity.
      * intros k Hki Hkn. now rewrite !dict_get_remove_neq.
    + split; [intros _; auto | intros _; eexists; reflexivity].
    + intros e H. discriminate.
Qed.

Lemma VeluxHome_init_attributes_witness :
  dict_get "id" [("id", PStr "h1"); ("name", PStr "Casa")]
  = Some (VeluxHome.id Sample.home1).
Proof.
  destruct (VeluxHome_init_attributes [("id", PStr "h1"); ("name", PStr "Casa")])
    as [H _].
  destruct (H Sample.home1 eq_refl) as [Hid _]. exact Hid.
Defined.

Lemma VeluxModule_init_fields (home : VeluxHome.t) (kw : dict pyval)
    (m : VeluxModule.t) :
  VeluxModule.init home kw = ok m ->
  VeluxModule.home m = home
  /\ dict_get "id" kw = Some (VeluxModule.id m)
  /\ dict_get "type" kw = Some (VeluxModule.type m)
  /\ VeluxModule.kwargs m = dict_remove "id" (dict_remove "type" kw)
  /\ dict_mem "self" kw = false /\ dict_mem "home" kw = false.
Proof.
  unfold VeluxModule.init.
  destruct (bind_arguments_rest _ _ kw) as [e0 | []] eqn:Hb; [discriminate |].
  apply bind_arguments_rest_ok in Hb. simpl in Hb. destruct Hb as [Hs Hr].
  rewrite orb_false_r in Hs. apply orb_false_iff in Hs.
  rewrite !andb_true_iff in Hr. destruct Hr as [Hi [Ht _]].
  destruct (dict_get_some _ _ Hi) as [vi Hvi].
  destruct (dict_get_some _ _ Ht) as [vt Hvt].
  simpl. intros H. injection H as <-. simpl. unfold arg.
  rewrite Hvi, Hvt. tauto.
Qed.

(** X7.  A module built from a dict with [VeluxModule(home, **module)]
    gives the dict back when it is passed on with [**status]: the
    keywords are read without error and hold every key of the dict with
    its value, the key ["home"] with the home, and no other key. *)
Theorem VeluxModule_splat_roundtrip (home : VeluxHome.t) (kw : dict pyval)
    (m : VeluxModule.t)
    (Hinit : VeluxModule.init home kw = ok m)
    (Hkeys : str_nodup (dict_keys kw) = true) :
  exists items,
    VeluxModule.splat m = ok items
    /\ (forall k v, dict_get k kw = Some v -> dict_get k items = Some (IVal v))
    /\ dict_get "home" items = Some (IHome home)
    /\ (forall k, dict_mem k items = true -> k = "home" \/ dict_mem k kw = true).
Proof.
  destruct (VeluxModule_init_fields home kw m Hinit)
    as [Hhome [Hid [Htype [Hkw [Hself Hnohome]]]]].
  assert (Hmem : forall k, dict_mem k (VeluxModule.kwargs m)
                           = if String.eqb k "id" then false
                             else if String.eqb k "type" then false
                             else dict_mem k kw).
  { intros k. rewrite Hkw, !dict_mem_remove. reflexivity. }
  assert (Hnd : str_nodup (VeluxModule.keys m) = true).
  { unfold VeluxModule.keys. apply str_nodup_app_intro.
    - rewrite Hkw. now apply str_nodup_remove, str_nodup_remove.
    - reflexivity.
    - intros k Hin. fold (dict_mem k (VeluxModule.kwargs m)). rewrite Hmem.
      simpl in Hin. destruct Hin as [<- | [<- | [<- | []]]]; simpl; auto. }
  destruct (rmap_items (VeluxModule.getitem m) (VeluxModule.keys m)
              (getitem_key m)) as [items [Hrun [Hik Hget]]].
  destruct (getitem_core m Hnd) as [Hgi [Hgt Hgh]].
  exists items. split; [| split; [| split]].
  - unfold VeluxModule.splat. now rewrite Hnd.
  - intros k v Hv.
    destruct (String.eqb_spec k "id") as [-> | Hni].
    { apply Hget; [unfold VeluxModule.keys; apply in_or_app; right; simpl; auto |].
      rewrite Hgi. congruence. }
    destruct (String.eqb_spec k "type") as [-> | Hnt].
    { apply Hget; [unfold VeluxModule.keys; apply in_or_app; right; simpl; auto |].
      rewrite Hgt. congruence. }
    assert (Hkv : dict_get k (VeluxModule.kwargs m) = Some v)
      by (rewrite Hkw, !dict_get_remove_neq; assumption).
    apply Hget.
    + unfold VeluxModule.keys. apply in_or_app. left.
      apply str_in_true. exact (dict_get_mem _ _ _ Hkv).
    + unfold VeluxModule.getitem. now rewrite Hkv.
  - rewrite <- Hhome. apply Hget; [| exact Hgh].
    unfold VeluxModule.keys. apply in_or_app. right. simpl. auto.
  - intros k Hk. unfold dict_mem in Hk. rewrite Hik in Hk.
    apply str_in_true in Hk. unfold VeluxModule.keys in Hk.
    apply in_app_or in Hk. destruct Hk as [Hk | Hk].
    + apply str_in_true in Hk. fold (dict_mem k (VeluxModule.kwargs m)) in Hk.
      rewrite Hmem in Hk. right.
      destruct (String.eqb k "id"); [discriminate |].
      destruct (String.eqb k "type"); [discriminate | exact Hk].
    + simpl in Hk. destruct Hk as [<- | [<- | [<- | []]]].
      * right. exact (dict_get_mem _ _ _ Hid).
      * right. exact (dict_get_mem _ _ _ Htype).
      * now left.
Qed.

Lemma VeluxModule_splat_roundtrip_witness :
  exists items,
    VeluxModule.splat Sample.shutter = ok items
    /\ dict_get "velux_type" items = Some (IVal (PStr "shutter")).
Proof.
  destruct (VeluxModule_splat_roundtrip Sample.home1 Sample.shutter_json
              Sample.shutter eq_refl eq_refl) as [items [Hrun [Hget _]]].
  exists items. split; [exact Hrun |]. apply Hget. reflexivity.
Defined.

(** X8.  [items()] never raises, whatever the extra attributes are: it
    yields one pair for every key of [keys()], in that order, and for a
    key of the extra attributes the value they hold for it (an extra
    attribute hides an attribute of the same name). *)
Theorem VeluxModule_items_total (m : VeluxModule.t) :
  exists items,
    VeluxModule_items m = ok items
    /\ dict_keys items = VeluxModule.keys m
    /\ List.length items = (List.length (VeluxModule.kwargs m) + 3)%nat
    /\ (forall k v, dict_get k (VeluxModule.kwargs m) = Some v ->
          dict_get k items = Some (IVal v)).
Proof.
  destruct (rmap_items (VeluxModule.getitem m) (VeluxModule.keys m)
              (getitem_key m)) as [items [Hrun [Hik Hget]]].
  exists items. split; [exact Hrun |]. split; [exact Hik |]. split.
  - rewrite <- (length_map fst items). fold (dict_keys items). rewrite Hik.
    unfold VeluxModule.keys, dict_keys. rewrite length_app, length_map.
    reflexivity.
  - intros k v Hv. apply Hget.
    + unfold VeluxModule.keys. apply in_or_app. left.
      apply str_in_true. exact (dict_get_mem _ _ _ Hv).
    + unfold VeluxModule.getitem. now rewrite Hv.
Qed.

Lemma VeluxModule_items_total_witness :
  exists items,
    VeluxModule_items Sample.plain_nxo = ok items
    /\ dict_get "reachable" items = Some (IVal (PBool true)).
Proof.
  destruct (VeluxModule_items_total Sample.plain_nxo)
    as [items [Hrun [_ [_ Hget]]]].
  exists items. split; [exact Hrun |]. apply Hget. reflexivity.
Defined.

(** ** What the data requests return *)

Lemma fetched_ok {A : Type} (r : Request) (parse : pyval -> result A)
    (w : World) (a : A) :
  fetched r parse w = ok a ->
  exists resp v,
    ending (remote w (sent w ++ [r])) = Answers resp
    /\ status resp < 400 /\ json resp = Some v /\ parse v = ok a.
Proof.
  unfold fetched.
  destruct (ending _) as [msg | resp] eqn:Hend; [discriminate |].
  destruct (Z.leb_spec 400 (status resp)) as [Hge | Hlt]; [discriminate |].
  destruct (json resp) as [v |] eqn:Hjs; [| discriminate].
  intros H. exists resp, v. repeat split; assumption.
Qed.

(** X4.  When [get_home_data] returns, the request was answered with a
    status below 400 and a body that decodes, [body.homes] of the decoded
    body can be iterated, and the homes returned are its elements, one by
    one and in order: each home has the ["id"] and the ["name"] of its
    element. *)
Theorem get_home_data_homes (w w' : World) (homes : list VeluxHome.t)
    (Hrun : VeluxActiveAPI.get_home_data w = (ok homes, w')) :
  exists token w1 resp v body hs elements,
    VeluxActiveAPI.access_token w = (ok token, w1)
    /\ w' = after_request w1 (gethomedata_request token)
    /\ ending (remote w1 (sent w1 ++ [gethomedata_request token])) = Answers resp
    /\ status resp < 400 /\ json resp = Some v
    /\ py_getitem v "body" = ok body
    /\ py_getitem body "homes" = ok hs
    /\ py_iter hs = ok elements
    /\ Forall2 (fun element home =>
                  py_getitem element "id" = ok (VeluxHome.id home)
                  /\ py_getitem element "name" = ok (VeluxHome.name home))
               elements homes.
Proof.
  rewrite get_home_data_run in Hrun.
  destruct (VeluxActiveAPI.access_token w) as [[e | token] w1]; [discriminate |].
  injection Hrun as Hf Hw.
  destruct (fetched_ok _ _ _ _ Hf) as [resp [v [Hend [Hst [Hjs Hparse]]]]].
  unfold homes_of_json in Hparse.
  destruct (py_getitem v "body") as [e | body] eqn:Hbody; [discriminate |].
  simpl in Hparse.
  destruct (py_getitem body "homes") as [e | hs] eqn:Hhs; [discriminate |].
  simpl in Hparse.
  destruct (py_iter hs) as [e | elements] eqn:Hit; [discriminate |].
  simpl in Hparse.
  exists token, w1, resp, v, body, hs, elements.
  repeat (split; [first [reflexivity | assumption | now symmetry] |]).
  apply rmap_Forall2 in Hparse.
  eapply Forall2_impl; [| exact Hparse].
  intros element home Hel. simpl in Hel.
  destruct element as [| | | | | kw]; try discriminate Hel. simpl in Hel.
  destruct (VeluxHome_init_fields kw home Hel) as [Hid [Hname _]].
  simpl. now rewrite Hid, Hname.
Qed.

Lemma get_home_data_homes_witness :
  exists elements,
    Forall2 (fun element home =>
               py_getitem element "id" = ok (VeluxHome.id home)
               /\ py_getitem element "name" = ok (VeluxHome.name home))
            elements [Sample.home1; Sample.home2].
Proof.
  assert (Hrun : VeluxActiveAPI.get_home_data Sample.second_home_fails
                 = (ok [Sample.home1; Sample.home2],
                    snd (VeluxActiveAPI.get_home_data Sample.second_home_fails)))
    by (vm_compute; reflexivity).
  destruct (get_home_data_homes _ _ _ Hrun)
    as [token [w1 [resp [v [body [hs [elements H]]]]]]].
  exists elements. apply H.
Defined.

(** X5.  When [get_home_statuses] returns, the modules returned are the
    elements of [body.home.modules] of the decoded body, one by one and
    in order: each module has the ["id"] and the ["type"] of its element
    and refers to the home the request was made for. *)
Theorem get_home_statuses_modules (home : VeluxHome.t) (w w' : World)
    (modules : list VeluxModule.t)
    (Hrun : VeluxActiveAPI.get_home_statuses home w = (ok modules, w')) :
  exists token w1 resp v body home_json ms elements,
    VeluxActiveAPI.access_token w = (ok token, w1)
    /\ w' = after_request w1 (homestatus_request token home)
    /\ ending (remote w1 (sent w1 ++ [homestatus_request token home]))
       = Answers resp
    /\ status resp < 400 /\ json resp = Some v
    /\ py_getitem v "body" = ok body
    /\ py_getitem body "home" = ok home_json
    /\ py_getitem home_json "modules" = ok ms
    /\ py_iter ms = ok elements
    /\ Forall2 (fun element m =>
                  VeluxModule.home m = home
                  /\ py_getitem element "id" = ok (VeluxModule.id m)
                  /\ py_getitem element "type" = ok (VeluxModule.type m))
               elements modules.
Proof.
  rewrite get_home_statuses_run in Hrun.
  destruct (VeluxActiveAPI.access_token w) as [[e | token] w1]; [discriminate |].
  injection Hrun as Hf Hw.
  destruct (fetched_ok _ _ _ _ Hf) as [resp [v [Hend [Hst [Hjs Hparse]]]]].
  unfold modules_of_json in Hparse.
  destruct (py_getitem v "body") as [e | body] eqn:Hbody; [discriminate |].
  simpl in Hparse.
  destruct (py_getitem body "home") as [e | home_json] eqn:Hhj; [discriminate |].
  simpl in Hparse.
  destruct (py_getitem home_json "modules") as [e | ms] eqn:Hms; [discriminate |].
  simpl in Hparse.
  destruct (py_iter ms) as [e | elements] eqn:Hit; [discriminate |].
  simpl in Hparse.
  exists token, w1, resp, v, body, home_json, ms, elements.
  repeat (split; [first [reflexivity | assumption | now symmetry] |]).
  apply rmap_Forall2 in Hparse.
  eapply Forall2_impl; [| exact Hparse].
  intros element m Hel. simpl in Hel.
  destruct element as [| | | | | kw]; try discriminate Hel. simpl in Hel.
  destruct (VeluxModule_init_fields home kw m Hel) as [Hh [Hid [Htype _]]].
  simpl. now rewrite Hid, Htype.
Qed.

Lemma get_home_statuses_modules_witness :
  exists elements,
    Forall2 (fun element m =>
               VeluxModule.home m = Sample.home1
               /\ py_getitem element "id" = ok (VeluxModule.id m)
               /\ py_getitem element "type" = ok (VeluxModule.type m))
            elements [Sample.shutter].
Proof.
  assert (Hrun : VeluxActiveAPI.get_home_statuses Sample.home1 Sample.status_world
                 = (ok [Sample.shutter],
                    snd (VeluxActiveAPI.get_home_statuses Sample.home1
                           Sample.status_world)))
    by (vm_compute; reflexivity).
  destruct (get_home_statuses_modules _ _ _ _ Hrun)
    as [token [w1 [resp [v [body [hj [ms [elements H]]]]]]]].
  exists elements. apply H.
Defined.

(** ** Equality of modules *)

(** X9.  Modules compare by the identifier of their home, their own
    identifier and their type, whatever their extra attributes and the
    names of their homes: with string identifiers and types two modules
    are equal exactly when the three agree.  A module never equals a
    value that is not a module, and a home never equals a module, also
    when the identifiers coincide. *)
Theorem VeluxModule_eq_by_key (h1 h2 i1 i2 t1 t2 : string) (n1 n2 : pyval)
    (hk1 hk2 k1 k2 : dict pyval) (m : VeluxModule.t) (other : pyobj)
    (Hother : forall o, other <> OModule o) :
  (VeluxModule__eq__
     (VeluxModule.mk (VeluxHome.mk (PStr h1) n1 hk1) (PStr i1) (PStr t1) k1)
     (OModule
        (VeluxModule.mk (VeluxHome.mk (PStr h2) n2 hk2) (PStr i2) (PStr t2) k2))
   = true
   <-> h1 = h2 /\ i1 = i2 /\ t1 = t2)
  /\ VeluxModule__eq__ m other = false
  /\ (forall home, VeluxHome__eq__ home (OModule m) = false).
Proof.
  split; [| split].
  - simpl. rewrite !andb_true_iff, !String.eqb_eq. tauto.
  - destruct other; try reflexivity. now destruct (Hother m0).
  - reflexivity.
Qed.

Lemma VeluxModule_eq_by_key_witness :
  VeluxModule__eq__ Sample.module_h1 (OHome Sample.casa) = false
  /\ VeluxHome__eq__ Sample.casa (OModule Sample.module_h1) = false.
Proof.
  assert (Hh : forall o, OHome Sample.casa <> OModule o) by discriminate.
  destruct (VeluxModule_eq_by_key "h1" "h1" "m1" "m1" "NXG" "NXG" PNone PNone
              [] [] [] [] Sample.module_h1 (OHome Sample.casa) Hh)
    as [_ [H1 H2]].
  split; [exact H1 | exact (H2 Sample.casa)].
Defined.

(** ** VeluxGatewayData.update *)

Lemma arg_nil {V : Type} (name : string) (x : V) : arg [] name x = x.
Proof. reflexivity. Qed.


Lemma arg_remove {V : Type} (key : string) (d : dict V) (name : string) (x : V) :
  name <> key -> arg (dict_remove key d) name x = arg d name x.
Proof. intros Hne. unfold arg. now rewrite dict_get_remove_neq. Qed.

Lemma not_field (key : string) (fields : list string) (name : string) :
  str_in key fields = false -> In name fields -> name <> key.
Proof.
  intros Hk Hin ->. apply str_in_true in Hin. congruence.
Qed.



(** ** The inner loop of the cycle *)

(** X12.  The inner loop maps the records in order and keeps the ones
    that are not [None]: it returns the records collected before
    followed by the records the mapper returns for the statuses, and
    raises what the mapper raises first. *)
Theorem convert_statuses_filter (statuses : list VeluxModule.t)
    (devices : list device) :
  convert_statuses statuses devices
  = (outs <- rmap _convert_status_to_sensor statuses ;;
     ok (devices ++ somes outs))%result.
Proof.
  revert devices. induction statuses as [| status statuses IH]; intros devices.
  - simpl. now rewrite app_nil_r.
  - simpl. destruct (_convert_status_to_sensor status) as [e | [d |]];
      simpl; [reflexivity | |].
    + rewrite IH. destruct (rmap _ statuses) as [e | outs]; simpl;
        [reflexivity |]. now rewrite <- app_assoc.
    + rewrite IH. destruct (rmap _ statuses) as [e | outs]; reflexivity.
Qed.

(** ** How long a token is served *)



(** ** The dict of the cycle *)

Local Arguments VeluxHome__eq__ : simpl never.

Ltac eqb_facts :=
  repeat match goal with
         | H : Bool.eqb _ _ = true |- _ => apply Bool.eqb_prop in H
         | H : Z.eqb _ _ = true |- _ => apply Z.eqb_eq in H
         | H : String.eqb _ _ = true |- _ => apply String.eqb_eq in H
         end;
  subst.

Lemma py_eq_refl_hashable (a : pyval) :
  py_hashable a = true -> py_eq a a = true.
Proof.
  destruct a; simpl; intros H; try discriminate; try reflexivity.
  - apply Bool.eqb_reflx.
  - apply Z.eqb_refl.
  - apply String.eqb_refl.
Qed.

Lemma py_eq_sym_hashable (a b : pyval) :
  py_hashable a = true -> py_eq a b = py_eq b a.
Proof.
  destruct a, b; simpl; intros H; try discriminate; try reflexivity.
  - now destruct b, b0.
  - apply Z.eqb_sym.
  - apply Z.eqb_sym.
  - apply Z.eqb_sym.
  - apply String.eqb_sym.
Qed.

Lemma py_eq_trans_hashable (a b c : pyval) :
  py_hashable a = true ->
  py_eq a b = true -> py_eq a c = true -> py_eq b c = true.
Proof.
  destruct a, b, c; simpl; intros H Hb Hc; try discriminate; try reflexivity;
    eqb_facts;
    first [ apply Bool.eqb_reflx | apply Z.eqb_refl | apply String.eqb_refl
          | idtac ].
  all: try (destruct b; destruct b0; simpl in *; first [reflexivity | discriminate | lia]).
Qed.

Lemma snapshot_getitem_ok (data : snapshot) (home : VeluxHome.t)
    (devices : list device) :
  snapshot_getitem data home = ok devices
  <-> py_hashable (VeluxHome.id home) = true
      /\ snapshot_get data home = Some devices.
Proof.
  unfold snapshot_getitem, VeluxHome.hash.
  destruct (py_hashable (VeluxHome.id home)); simpl.
  - destruct (snapshot_get data home) as [v |]; simpl.
    + split; [intros H; injection H as ->; auto | intros [_ H]; now injection H as ->].
    + split; [discriminate | intros [_ H]; discriminate].
  - split; [discriminate | intros [H _]; discriminate].
Qed.

Lemma snapshot_setitem_ok (data data' : snapshot) (home : VeluxHome.t)
    (devices : list device) :
  snapshot_setitem data home devices = ok data'
  <-> py_hashable (VeluxHome.id home) = true
      /\ data' = snapshot_set data home devices.
Proof.
  unfold snapshot_setitem, VeluxHome.hash.
  destruct (py_hashable (VeluxHome.id home)); simpl.
  - split; [intros H; injection H as <-; auto | intros [_ ->]; reflexivity].
  - split; [discriminate | intros [H _]; discriminate].
Qed.

Lemma snapshot_set_found (data : snapshot) (home : VeluxHome.t)
    (devices : list device) :
  py_hashable (VeluxHome.id home) = true ->
  snapshot_get (snapshot_set data home devices) home = Some devices.
Proof.
  intros Hh. induction data as [| [k v] data IH]; simpl.
  - unfold VeluxHome__eq__. now rewrite (py_eq_refl_hashable _ Hh).
  - destruct (VeluxHome__eq__ k (OHome home)) eqn:Hk; simpl; now rewrite Hk.
Qed.

Lemma snapshot_set_keeps (data : snapshot) (home other : VeluxHome.t)
    (devices v : list device) :
  snapshot_get data other = Some v ->
  exists v', snapshot_get (snapshot_set data home devices) other = Some v'.
Proof.
  induction data as [| [k x] data IH]; simpl; [discriminate |].
  destruct (VeluxHome__eq__ k (OHome home)) eqn:Hk; simpl.
  - destruct (VeluxHome__eq__ k (OHome other)); eauto.
  - destruct (VeluxHome__eq__ k (OHome other)); eauto.
Qed.

Lemma snapshot_set_other (data : snapshot) (home other : VeluxHome.t)
    (devices : list device) :
  snapshot_wf data ->
  VeluxHome__eq__ home (OHome other) = false ->
  snapshot_get (snapshot_set data home devices) other = snapshot_get data other.
Proof.
  intros Hwf Hne. induction data as [| [k v] data IH]; simpl.
  - now rewrite Hne.
  - destruct Hwf as [Hk [_ Hwf]].
    destruct (VeluxHome__eq__ k (OHome home)) eqn:Hkh; simpl.
    + destruct (VeluxHome__eq__ k (OHome other)) eqn:Hko; [| reflexivity].
      unfold VeluxHome__eq__ in Hkh, Hko, Hne.
      rewrite (py_eq_trans_hashable _ _ _ Hk Hkh Hko) in Hne. discriminate.
    + now rewrite (IH Hwf).
Qed.

Lemma snapshot_set_wf (data : snapshot) (home : VeluxHome.t)
    (devices : list device) :
  py_hashable (VeluxHome.id home) = true ->
  snapshot_wf data -> snapshot_wf (snapshot_set data home devices).
Proof.
  intros Hh. induction data as [| [k v] data IH]; simpl.
  - auto.
  - intros [Hk [Hnone Hwf]].
    destruct (VeluxHome__eq__ k (OHome home)) eqn:Hkh; simpl.
    + auto.
    + split; [exact Hk |]. split; [| now apply IH].
      rewrite snapshot_set_other; [exact Hnone | exact Hwf |].
      unfold VeluxHome__eq__ in *. now rewrite <- (py_eq_sym_hashable _ _ Hk).
Qed.

Lemma snapshot_set_length (data : snapshot) (home : VeluxHome.t)
    (devices : list device) :
  (List.length (snapshot_set data home devices) <= S (List.length data))%nat
  /\ (List.length data <= List.length (snapshot_set data home devices))%nat.
Proof.
  induction data as [| [k v] data IH]; simpl; [lia |].
  destruct (VeluxHome__eq__ k (OHome home)); simpl; lia.
Qed.

(** X11.  Storing the devices of a home in the dict of the cycle and
    reading the dict with that home gives the devices back.  The keys
    stay hashable and pairwise unequal, what the dict holds for a home
    that is not equal to the stored one is unchanged, and the dict grows
    by at most one entry: none when an equal home was a key already. *)
Theorem snapshot_set_get (data data' : snapshot) (home : VeluxHome.t)
    (devices : list device)
    (Hset : snapshot_setitem data home devices = ok data')
    (Hwf : snapshot_wf data) :
  snapshot_getitem data' home = ok devices
  /\ snapshot_wf data'
  /\ (forall other,
        VeluxHome__eq__ home (OHome other) = false ->
        snapshot_get data' other = snapshot_get data other)
  /\ (List.length data <= List.length data' <= S (List.length data))%nat
  /\ (snapshot_get data home <> None ->
      map fst data' = map fst data).
Proof.
  apply snapshot_setitem_ok in Hset. destruct Hset as [Hh ->].
  split; [| split; [| split; [| split]]].
  - apply snapshot_getitem_ok. split; [exact Hh |].
    now apply snapshot_set_found.
  - now apply snapshot_set_wf.
  - intros other Hne. now apply snapshot_set_other.
  - pose proof (snapshot_set_length data home devices). lia.
  - clear Hwf. induction data as [| [k v] data IH]; simpl; [congruence |].
    destruct (VeluxHome__eq__ k (OHome home)); simpl; [reflexivity |].
    intros Hsome. now rewrite IH.
Qed.

Lemma snapshot_set_get_witness :
  snapshot_getitem [(Sample.home1, [])] Sample.casa = ok [].
Proof.
  apply (snapshot_set_get [(Sample.home1, [Gateway Sample.gateway])]
           [(Sample.home1, [])] Sample.casa []).
  - reflexivity.
  - simpl. auto.
Defined.

(** ** What a cycle publishes *)

Lemma async_update_data_ok (entry : ConfigEntry) (w w' : World) (data : snapshot) :
  async_update_data entry w = (ok data, w') -> update_body w = (ok data, w').
Proof.
  rewrite async_update_data_run.
  destruct (update_body w) as [[e | d] w1]; [| now intros H].
  destruct (is_InvalidAuthError e); [| discriminate].
  destruct (VeluxActiveAPI.authenticate _ _ w1) as [[e' | tok] w2]; discriminate.
Qed.

Lemma update_homes_ok_step (home : VeluxHome.t) (rest : list VeluxHome.t)
    (data0 data : snapshot) (w w' : World) :
  update_homes (home :: rest) data0 w = (ok data, w') ->
  exists statuses devices data1 w1,
    VeluxActiveAPI.get_home_statuses home w = (ok statuses, w1)
    /\ convert_statuses statuses [] = ok devices
    /\ snapshot_setitem data0 home devices = ok data1
    /\ update_homes rest data1 w1 = (ok data, w').
Proof.
  rewrite update_homes_step.
  destruct (VeluxActiveAPI.get_home_statuses home w) as [[e | statuses] w1]
    eqn:Hs; [discriminate |].
  destruct (convert_statuses statuses []) as [e | devices] eqn:Hc;
    [discriminate |].
  destruct (snapshot_setitem data0 home devices) as [e | data1] eqn:Hd;
    [discriminate |].
  intros H. exists statuses, devices, data1, w1. auto.
Qed.

Lemma update_homes_keys (homes : list VeluxHome.t) :
  forall (data0 data : snapshot) (w w' : World),
    update_homes homes data0 w = (ok data, w') ->
    snapshot_wf data0 ->
    snapshot_wf data
    /\ (forall home, In home homes ->
          exists devices, snapshot_getitem data home = ok devices)
    /\ (forall home v, snapshot_get data0 home = Some v ->
          exists v', snapshot_get data home = Some v')
    /\ (List.length data <= List.length data0 + List.length homes)%nat.
Proof.
  induction homes as [| home rest IH]; intros data0 data w w' Hrun Hwf.
  - simpl in Hrun. injection Hrun as <- _.
    repeat split; [exact Hwf | intros home [] | eauto | lia].
  - destruct (update_homes_ok_step _ _ _ _ _ _ Hrun)
      as [statuses [devices [data1 [w1 [_ [_ [Hset Hrest]]]]]]].
    apply snapshot_setitem_ok in Hset. destruct Hset as [Hh ->].
    destruct (IH _ _ _ _ Hrest (snapshot_set_wf _ _ _ Hh Hwf))
      as [Hwf' [Hin [Hkeep Hlen]]].
    split; [exact Hwf' |]. split; [| split].
    + intros h [<- | Hh'].
      * destruct (Hkeep home devices (snapshot_set_found data0 home devices Hh))
          as [v' Hv'].
        exists v'. apply snapshot_getitem_ok. auto.
      * now apply Hin.
    + intros h v Hv.
      destruct (snapshot_set_keeps data0 home h devices v Hv) as [v1 Hv1].
      exact (Hkeep h v1 Hv1).
    + pose proof (snapshot_set_length data0 home devices). simpl. lia.
Qed.

(** X13.  The mapping a cycle returns has an entry for every home the
    home list held: each of them can be looked up in it.  Its keys are
    hashable and pairwise unequal, it has no more entries than the list
    has homes, and it is empty when the list is. *)
Theorem published_snapshot_homes (entry : ConfigEntry) (w w0 w' : World)
    (homes : list VeluxHome.t) (data : snapshot)
    (Hhomes : VeluxActiveAPI.get_home_data w = (ok homes, w0))
    (Hcycle : async_update_data entry w = (ok data, w')) :
  snapshot_wf data
  /\ (forall home, In home homes ->
        exists devices, snapshot_getitem data home = ok devices)
  /\ (List.length data <= List.length homes)%nat
  /\ (homes = [] -> data = [] /\ w' = w0).
Proof.
  apply async_update_data_ok in Hcycle.
  rewrite update_body_run, Hhomes in Hcycle. unfold ok at 1 in Hcycle.
  destruct (update_homes_keys homes [] data w0 w' Hcycle I)
    as [Hwf [Hin [_ Hlen]]].
  split; [exact Hwf |]. split; [exact Hin |]. split; [exact Hlen |].
  intros ->. simpl in Hcycle. injection Hcycle as <- <-. auto.
Qed.

Lemma published_snapshot_homes_witness :
  exists data devices,
    fst (async_update_data Sample.entry Sample.good_cycle) = ok data
    /\ snapshot_getitem data Sample.home2 = ok devices.
Proof.
  assert (Hhomes : VeluxActiveAPI.get_home_data Sample.good_cycle
                   = (ok [Sample.home1; Sample.home2],
                      snd (VeluxActiveAPI.get_home_data Sample.good_cycle)))
    by (vm_compute; reflexivity).
  destruct (async_update_data Sample.entry Sample.good_cycle)
    as [[e | data] w'] eqn:Hcycle; [vm_compute in Hcycle; discriminate |].
  destruct (published_snapshot_homes _ _ _ _ _ _ Hhomes Hcycle) as [_ [Hin _]].
  destruct (Hin Sample.home2 (or_intror (or_introl eq_refl))) as [devices Hd].
  exists data, devices. split; [reflexivity | exact Hd].
Defined.

Lemma splat_core (status : VeluxModule.t) (kw : dict item) :
  VeluxModule.splat status = ok kw ->
  arg kw "id" no_value = IVal (VeluxModule.id status)
  /\ arg kw "home" no_value = IHome (VeluxModule.home status).
Proof.
  unfold VeluxModule.splat.
  destruct (str_nodup (VeluxModule.keys status)) eqn:Hnd; [| discriminate].
  destruct (rmap_items (VeluxModule.getitem status) (VeluxModule.keys status)
              (getitem_key status)) as [kw0 [Hrun [_ Hget]]].
  rewrite Hrun. intros H. injection H as <-.
  destruct (getitem_core status Hnd) as [Hid [_ Hhome]].
  unfold arg.
  rewrite (Hget "id" _ (ltac:(unfold VeluxModule.keys; apply in_or_app; right;
                               simpl; auto)) Hid).
  rewrite (Hget "home" _ (ltac:(unfold VeluxModule.keys; apply in_or_app; right;
                                 simpl; auto)) Hhome).
  auto.
Qed.

Ltac built_record init :=
  let kw := fresh "kw" in
  let Hsplat := fresh "Hsplat" in
  let H := fresh "H" in
  destruct (VeluxModule.splat _) as [? | kw] eqn:Hsplat; [discriminate |];
  simpl rbind; unfold init;
  destruct (bind_arguments _ _ kw) as [? | []]; [discriminate |];
  simpl rbind; intros H; injection H as <-; simpl;
  exact (splat_core _ _ Hsplat).

Lemma convert_fields (status : VeluxModule.t) (d : device) :
  _convert_status_to_sensor status = ok (Some d) ->
  device_id d = IVal (VeluxModule.id status)
  /\ device_home d = IHome (VeluxModule.home status).
Proof.
  unfold _convert_status_to_sensor.
  destruct (case_str (VeluxModule.type status) "NXG").
  { built_record VeluxGatewayData.init. }
  destruct (case_str (VeluxModule.type status) "NXS").
  { built_record VeluxSwitchData.init. }
  destruct (case_str (VeluxModule.type status) "NXO"); [| discriminate].
  destruct (VeluxModule.getitem status "velux_type") as [e | vt];
    [discriminate |].
  simpl rbind.
  destruct (item_case_str vt "shutter").
  { built_record VeluxShutterData.init. }
  destruct (item_case_str vt "window"); [| discriminate].
  built_record VeluxWindowData.init.
Qed.

Lemma convert_statuses_home (home : VeluxHome.t)
    (statuses : list VeluxModule.t) :
  Forall (fun m => VeluxModule.home m = home) statuses ->
  forall acc devices,
    convert_statuses statuses acc = ok devices ->
    devices_of home acc -> devices_of home devices.
Proof.
  induction 1 as [| status statuses Hs Hall IH]; intros acc devices; simpl.
  - intros H. now injection H as <-.
  - destruct (_convert_status_to_sensor status) as [e | [d |]] eqn:Hc; simpl;
      [discriminate | |].
    + intros Hrun Hacc. apply (IH _ _ Hrun).
      intros x Hx. apply in_app_or in Hx. destruct Hx as [Hx | [<- | []]].
      * now apply Hacc.
      * destruct (convert_fields status d Hc) as [Hid Hhome].
        rewrite Hhome, Hs. eauto.
    + intros Hrun Hacc. exact (IH _ _ Hrun Hacc).
Qed.

Lemma get_home_statuses_home (home : VeluxHome.t) (w w' : World)
    (statuses : list VeluxModule.t) :
  VeluxActiveAPI.get_home_statuses home w = (ok statuses, w') ->
  Forall (fun m => VeluxModule.home m = home) statuses.
Proof.
  rewrite get_home_statuses_run.
  destruct (VeluxActiveAPI.access_token w) as [[e | token] w1]; [discriminate |].
  intros H. injection H as Hf _.
  destruct (fetched_ok _ _ _ _ Hf) as [resp [v [_ [_ [_ Hparse]]]]].
  unfold modules_of_json in Hparse.
  destruct (py_getitem v "body") as [e | body]; [discriminate |].
  simpl in Hparse.
  destruct (py_getitem body "home") as [e | home_json]; [discriminate |].
  simpl in Hparse.
  destruct (py_getitem home_json "modules") as [e | ms]; [discriminate |].
  simpl in Hparse.
  destruct (py_iter ms) as [e | elements]; [discriminate |].
  simpl in Hparse. apply rmap_Forall2 in Hparse. clear Hf.
  induction Hparse as [| element m elements statuses Hel _ IH]; constructor.
  - simpl in Hel. destruct element as [| | | | | kw]; try discriminate Hel.
    simpl in Hel. now destruct (VeluxModule_init_fields home kw m Hel).
  - exact IH.
Qed.

Lemma snapshot_set_filed (data : snapshot) (home : VeluxHome.t)
    (devices : list device) :
  py_hashable (VeluxHome.id home) = true ->
  devices_of home devices ->
  filed_by_home data -> filed_by_home (snapshot_set data home devices).
Proof.
  intros Hh Hd. induction data as [| [k v] data IH]; intros Hf; simpl.
  - intros k devs [Heq | []]. injection Heq as <- <-.
    exists home. split; [| exact Hd].
    unfold VeluxHome__eq__. now apply py_eq_refl_hashable.
  - destruct (VeluxHome__eq__ k (OHome home)) eqn:Hk.
    + intros k' devs [Heq | Hin].
      * injection Heq as <- <-. exists home. auto.
      * apply Hf. now right.
    + intros k' devs [Heq | Hin].
      * apply Hf. now left.
      * apply IH; [| exact Hin]. intros k2 d2 H2. apply Hf. now right.
Qed.

Lemma update_homes_filed (homes : list VeluxHome.t) :
  forall (data0 data : snapshot) (w w' : World),
    update_homes homes data0 w = (ok data, w') ->
    filed_by_home data0 -> filed_by_home data.
Proof.
  induction homes as [| home rest IH]; intros data0 data w w' Hrun Hf.
  - simpl in Hrun. now injection Hrun as <- _.
  - destruct (update_homes_ok_step _ _ _ _ _ _ Hrun)
      as [statuses [devices [data1 [w1 [Hs [Hc [Hset Hrest]]]]]]].
    apply snapshot_setitem_ok in Hset. destruct Hset as [Hh ->].
    apply (IH _ _ _ _ Hrest). apply snapshot_set_filed; [exact Hh | | exact Hf].
    apply (convert_statuses_home home statuses
             (get_home_statuses_home _ _ _ _ Hs) [] devices Hc).
    intros d [].
Qed.

(** X14.  In the mapping a cycle returns every device record refers back
    to a home that is equal to the key it is filed under, and has a JSON
    value as identifier. *)
Theorem published_devices_home (entry : ConfigEntry) (w w' : World)
    (data : snapshot) (k : VeluxHome.t) (devices : list device) (d : device)
    (Hcycle : async_update_data entry w = (ok data, w'))
    (Hentry : In (k, devices) data)
    (Hdevice : In d devices) :
  exists home v,
    device_home d = IHome home
    /\ VeluxHome__eq__ k (OHome home) = true
    /\ device_id d = IVal v.
Proof.
  apply async_update_data_ok in Hcycle. rewrite update_body_run in Hcycle.
  destruct (VeluxActiveAPI.get_home_data w) as [[e | homes] w0];
    [discriminate |].
  assert (Hf : filed_by_home data).
  { apply (update_homes_filed homes [] data w0 w' Hcycle). intros k0 d0 []. }
  destruct (Hf k devices Hentry) as [home [Hk Hd]].
  destruct (Hd d Hdevice) as [Hhome [v Hv]].
  exists home, v. auto.
Qed.

Lemma published_devices_home_witness :
  exists d home v,
    device_home d = IHome home
    /\ VeluxHome__eq__ Sample.home1 (OHome home) = true
    /\ device_id d = IVal v.
Proof.
  destruct (_convert_status_to_sensor Sample.shutter) as [e | [d |]] eqn:Hd;
    try (vm_compute in Hd; discriminate).
  exists d.
  apply (published_devices_home Sample.entry Sample.good_cycle
           (snd (async_update_data Sample.entry Sample.good_cycle))
           [(Sample.home1, [d]); (Sample.home2, [])] Sample.home1 [d] d).
  - vm_compute in Hd. injection Hd as <-. vm_compute. reflexivity.
  - left. reflexivity.
  - left. reflexivity.
Defined.

(** ** The constructor of tokens *)

Lemma bind_arguments_rest_remove {V : Type} (taken required : list string)
    (key : string) (kw : dict V) :
  str_in key (taken ++ required) = false ->
  bind_arguments_rest taken required (dict_remove key kw)
  = bind_arguments_rest taken required kw.
Proof.
  intros Hkey. unfold bind_arguments_rest.
  assert (Hmem : forall p, In p (taken ++ required) ->
                   dict_mem p (dict_remove key kw) = dict_mem p kw).
  { intros p Hin. rewrite dict_mem_remove.
    destruct (String.eqb_spec p key) as [-> | Hne]; [| reflexivity].
    apply str_in_true in Hin. congruence. }
  assert (He : existsb (fun p => dict_mem p (dict_remove key kw)) taken
               = existsb (fun p => dict_mem p kw) taken).
  { clear Hkey. induction taken as [| t taken IH]; simpl; [reflexivity |].
    rewrite (Hmem t) by (simpl; auto). f_equal. apply IH.
    intros p Hin. apply Hmem. simpl. auto. }
  assert (Hf : forallb (fun p => dict_mem p (dict_remove key kw)) required
               = forallb (fun p => dict_mem p kw) required).
  { assert (Hr : forall p, In p required ->
                    dict_mem p (dict_remove key kw) = dict_mem p kw)
      by (intros p Hin; apply Hmem, in_or_app; now right).
    clear Hkey Hmem He. induction required as [| r required IH]; simpl;
      [reflexivity |].
    rewrite (Hr r) by (simpl; auto). f_equal. apply IH.
    intros p Hin. apply Hr. simpl. auto. }
  now rewrite He, Hf.
Qed.

(** X16.  The constructor of tokens ignores what a token response holds
    beside the three fields it names: a body with or without such a key
    gives the same result.  A body that has a key ["self"] or lacks one
    of the three fields makes it raise [TypeError].  A token it returns
    holds the [access_token] and the [refresh_token] of the body as they
    are and was created at the clock reading. *)
Theorem AuthToken_init_extras (now : datetime) (kw : dict pyval) (key : string)
    (Hkey : str_in key ["self"; "access_token"; "refresh_token"; "expires_in"]
            = false) :
  AuthToken.init now (dict_remove key kw) = AuthToken.init now kw
  /\ (dict_mem "self" kw = true
      \/ dict_mem "access_token" kw = false
      \/ dict_mem "refresh_token" kw = false
      \/ dict_mem "expires_in" kw = false ->
      exists msg, AuthToken.init now kw = raise (TypeError msg))
  /\ (forall tok, AuthToken.init now kw = ok tok ->
        dict_mem "self" kw = false
        /\ dict_get "access_token" kw = Some (AuthToken.access_token tok)
        /\ dict_get "refresh_token" kw = Some (AuthToken.refresh_token tok)
        /\ dict_mem "expires_in" kw = true
        /\ AuthToken.created_at tok = now).
Proof.
  split; [| split].
  - unfold AuthToken.init.
    rewrite (bind_arguments_rest_remove ["self"] _ key kw Hkey).
    rewrite !arg_remove
      by (apply (not_field key _ _ Hkey); simpl; tauto).
    reflexivity.
  - intros Hbad. unfold AuthToken.init.
    destruct (bind_arguments_rest _ _ kw) as [e0 | []] eqn:Hb; simpl.
    + destruct (bind_arguments_rest_error _ _ _ _ Hb) as [msg ->]. eauto.
    + apply bind_arguments_rest_ok in Hb. simpl in Hb. destruct Hb as [Hs Hr].
      rewrite orb_false_r in Hs. rewrite !andb_true_iff in Hr.
      destruct Hr as [Ha [Hrt [He _]]].
      destruct Hbad as [H | [H | [H | H]]]; congruence.
  - intros tok. unfold AuthToken.init.
    destruct (bind_arguments_rest _ _ kw) as [e0 | []] eqn:Hb; simpl;
      [discriminate |].
    apply bind_arguments_rest_ok in Hb. simpl in Hb. destruct Hb as [Hs Hr].
    rewrite orb_false_r in Hs. rewrite !andb_true_iff in Hr.
    destruct Hr as [Ha [Hrt [He _]]].
    destruct (dict_get_some _ _ Ha) as [va Hva].
    destruct (dict_get_some _ _ Hrt) as [vr Hvr].
    destruct (AuthToken.seconds_of _) as [e | life]; simpl; [discriminate |].
    intros H. injection H as <-. simpl. unfold arg. rewrite Hva, Hvr. auto.
Qed.

Lemma AuthToken_init_extras_witness :
  AuthToken.init 0
    (dict_remove "scope" (Sample.token_body (PStr "a") (PStr "r") 10800))
  = AuthToken.init 0 (Sample.token_body (PStr "a") (PStr "r") 10800).
Proof.
  apply (AuthToken_init_extras 0
           (Sample.token_body (PStr "a") (PStr "r") 10800) "scope").
  reflexivity.
Defined.

(** ** What the mapper raises *)

Lemma splat_error (status : VeluxModule.t) (e : exn) :
  VeluxModule.splat status = raise e -> exists msg, e = TypeError msg.
Proof.
  unfold VeluxModule.splat.
  destruct (str_nodup (VeluxModule.keys status)).
  - destruct (rmap_items (VeluxModule.getitem status) (VeluxModule.keys status)
                (getitem_key status)) as [kw [Hrun _]].
    rewrite Hrun. discriminate.
  - intros H. injection H as <-. eauto.
Qed.

Lemma bind_arguments_error {V : Type} (required optional : list string)
    (kw : dict V) (e : exn) :
  bind_arguments required optional kw = raise e -> exists msg, e = TypeError msg.
Proof.
  unfold bind_arguments.
  destruct (negb _); [intros H; injection H as <-; eauto |].
  destruct (negb _); [intros H; injection H as <-; eauto | discriminate].
Qed.

Ltac record_error init :=
  let kw := fresh "kw" in
  let Hsplat := fresh "Hsplat" in
  let Hb := fresh "Hb" in
  let H := fresh "H" in
  destruct (VeluxModule.splat _) as [? | kw] eqn:Hsplat;
  [ simpl rbind; intros H; injection H as <-; left;
    exact (splat_error _ _ Hsplat)
  | simpl rbind; unfold init;
    destruct (bind_arguments _ _ kw) as [? | []] eqn:Hb;
    [ simpl rbind; intros H; injection H as <-; left;
      exact (bind_arguments_error _ _ _ _ Hb)
    | simpl rbind; discriminate ] ].

(** X17.  The mapper raises nothing but [TypeError] and the [KeyError]
    for a missing ["velux_type"]; in particular never an authentication
    error.  So a cycle that meets a record the mapper raises on, the
    records before it in the same home having been mapped, raises
    [UpdateFailed] for a communication error carrying what the mapper
    raised, and does not re-authenticate. *)
Theorem convert_errors (status : VeluxModule.t) (e : exn)
    (Hraise : _convert_status_to_sensor status = raise e) :
  ((exists msg, e = TypeError msg)
   \/ e = KeyError "Key 'velux_type' not found in VeluxModule")
  /\ is_InvalidAuthError e = false
  /\ (forall (entry : ConfigEntry) (w w0 w1 w2 : World)
             (pre post : list VeluxHome.t) (home : VeluxHome.t)
             (data1 : snapshot) (before after : list VeluxModule.t)
             (devices : list device),
        VeluxActiveAPI.get_home_data w = (ok (pre ++ home :: post), w0) ->
        update_homes pre [] w0 = (ok data1, w1) ->
        VeluxActiveAPI.get_home_statuses home w1
        = (ok (before ++ status :: after), w2) ->
        convert_statuses before [] = ok devices ->
        async_update_data entry w
        = (raise (UpdateFailed CommunicationError e), w2)).
Proof.
  assert (Hkind : (exists msg, e = TypeError msg)
                  \/ e = KeyError "Key 'velux_type' not found in VeluxModule").
  { revert Hraise. unfold _convert_status_to_sensor.
    destruct (case_str (VeluxModule.type status) "NXG").
    { record_error VeluxGatewayData.init. }
    destruct (case_str (VeluxModule.type status) "NXS").
    { record_error VeluxSwitchData.init. }
    destruct (case_str (VeluxModule.type status) "NXO"); [| discriminate].
    unfold VeluxModule.getitem.
    destruct (dict_get "velux_type" (VeluxModule.kwargs status)) as [vt |].
    - simpl rbind. unfold item_case_str.
      destruct (case_str vt "shutter").
      { record_error VeluxShutterData.init. }
      destruct (case_str vt "window"); [| discriminate].
      record_error VeluxWindowData.init.
    - simpl. intros H. injection H as <-. now right. }
  assert (Hno : is_InvalidAuthError e = false)
    by (destruct Hkind as [[msg ->] | ->]; reflexivity).
  split; [exact Hkind |]. split; [exact Hno |].
  intros entry w w0 w1 w2 pre post home data1 before after devices
    Hhomes Hpre Hstatuses Hbefore.
  rewrite async_update_data_run.
  rewrite (update_body_reaches w w0 w1 pre post home data1 Hhomes Hpre).
  rewrite update_homes_step, Hstatuses. unfold ok at 1.
  rewrite (convert_statuses_stops before after status _ Hraise [] devices Hbefore).
  unfold raise at 1. now rewrite Hno.
Qed.

Lemma convert_errors_witness :
  is_InvalidAuthError (TypeError "missing required positional arguments") = false.
Proof.
  apply (convert_errors Sample.bare_gateway). reflexivity.
Defined.
